(** * prompt: prompt and verify user input on the command line

    A shallow embedding of [src/prompt/__init__.py] (version 0.4.1) and the
    properties of its retry loop, its handling of empty responses and
    defaults, and its choice and yes/no prompts.

    Conventions of the embedding.
    - A Python [str] is a [string]; each [ascii] stands for one character
      (the code points 0..255).
    - Python's [None] for an optional argument or result is [None] of
      [option].
    - The terminal is explicit: a function takes the lines that remain to be
      read on standard input and the list of what has been written so far,
      and returns its outcome together with both, updated.  Reading at the
      end of the input raises [EOFError], as [input] does.
    - Every prompting function reads exactly one line per call before it
      calls itself again, so each is a structural [Fixpoint] on the lines
      that remain. *)

From Stdlib Require Import Bool Arith ZArith Lia List Ascii String.
From Stdlib Require Import DecimalString DecimalPos.
Import ListNotations.
Open Scope string_scope.

(** ** Python primitives the module relies on *)

Module Py.

(** The two protocols the source uses on arbitrary values: truth value
    testing ([if x], [not x]) and conversion by [str.format]. *)
Class Obj (T : Type) := {
  truthy : T -> bool;
  str : T -> string
}.

#[export] Instance Obj_str : Obj string := {
  truthy s := negb (String.eqb s "");
  str s := s
}.

#[export] Instance Obj_int : Obj Z := {
  truthy z := negb (Z.eqb z 0);
  str z := NilZero.string_of_int (Z.to_int z)
}.

#[export] Instance Obj_bool : Obj bool := {
  truthy b := b;
  str b := if b then "True" else "False"
}.

(** An optional value: [None] is false and prints as ["None"]. *)
#[export] Instance Obj_option {T} `{Obj T} : Obj (option T) := {
  truthy o := match o with Some x => truthy x | None => false end;
  str o := match o with Some x => str x | None => "None" end
}.

(** [x is not None] *)
Definition is_not_None {T} (o : option T) : bool :=
  match o with Some _ => true | None => false end.

(** [len(s)] *)
Definition len (s : string) : Z := Z.of_nat (String.length s).

(** [s.startswith(p)] *)
Definition startswith (s p : string) : bool := String.prefix p s.

(** [c.lower()] on one character: the letters A-Z, and the capital
    letters of the range 0xC0..0xDE (0xD7, the multiplication sign,
    apart). *)
Definition lower_char (c : ascii) : ascii :=
  let n := nat_of_ascii c in
  if (((65 <=? n) && (n <=? 90)) ||
      ((192 <=? n) && (n <=? 222) && negb (n =? 215)))%nat
  then ascii_of_nat (n + 32) else c.

(** [s.lower()] *)
Fixpoint lower (s : string) : string :=
  match s with
  | EmptyString => EmptyString
  | String c r => String (lower_char c) (lower r)
  end.

(** *** [int(s)]: base-10 integer literals

    Surrounding white space is dropped; then comes an optional sign and a
    non-empty run of digits in which single underscores may separate
    digits.  [None] stands for [ValueError]. *)

(** The white space [int] drops around a literal: tab, line feed, vertical
    tab, form feed, carriage return and space, and of the characters past
    127 the next line mark (0x85) and the no-break space (0xA0).  The
    separators 0x1C..0x1F are not dropped. *)
Definition is_space (c : ascii) : bool :=
  let n := nat_of_ascii c in
  (((9 <=? n) && (n <=? 13)) || (n =? 32)
   || (n =? 133) || (n =? 160))%nat.

Definition digit (c : ascii) : option Z :=
  let n := nat_of_ascii c in
  if ((48 <=? n) && (n <=? 57))%nat then Some (Z.of_nat (n - 48)) else None.

Fixpoint lstrip (s : string) : string :=
  match s with
  | String c r => if is_space c then lstrip r else s
  | EmptyString => EmptyString
  end.

(** White space at the end: [true] when only white space remains. *)
Fixpoint all_space (s : string) : bool :=
  match s with
  | EmptyString => true
  | String c r => is_space c && all_space r
  end.

(** [digits acc after_digit s]: reads the digits of [s] into [acc];
    [after_digit] tells whether the previous character was a digit (an
    underscore is legal only between two digits). *)
Fixpoint digits (acc : Z) (after_digit : bool) (s : string) : option Z :=
  match s with
  | EmptyString => if after_digit then Some acc else None
  | String c r =>
      match digit c with
      | Some d => digits (10 * acc + d) true r
      | None =>
          if Ascii.eqb c "_" then
            if after_digit then
              match r with
              | String c' _ =>
                  match digit c' with
                  | Some _ => digits acc false r
                  | None => None
                  end
              | EmptyString => None
              end
            else None
          else if after_digit && all_space s then Some acc else None
      end
  end.

Definition int (s : string) : option Z :=
  match lstrip s with
  | String "+" r => digits 0 false r
  | String "-" r => option_map Z.opp (digits 0 false r)
  | t => digits 0 false t
  end.

(** [enumerate(l)] *)
Definition enumerate {A} (l : list A) : list (Z * A) :=
  combine (map Z.of_nat (seq 0 (List.length l))) l.

End Py.

Import Py.

(** ** The terminal *)

(** What a call writes: the prompt of [input], the prompt of
    [getpass.getpass] (the line that follows is read without echo), and a
    line written by [print]. *)
Inductive event : Type :=
  | Asked (text : string)
  | AskedNoEcho (text : string)
  | Printed (line : string).

Inductive exn : Type :=
  | ValueError
  | EOFError.

Inductive outcome (A : Type) : Type :=
  | Return (a : A)
  | Raise (e : exn).

Arguments Return {A} a.
Arguments Raise {A} e.

(** The result of running a call: its outcome, the lines left on standard
    input, and everything written so far (oldest first). *)
Definition run (A : Type) : Type := outcome A * list string * list event.

(** A function body that ends without reaching a [return] statement yields
    [None]. *)
Definition falls_off_the_end {A} : outcome (option A) := Return None.

(** ** The regular expressions

    The matching engine ([re.match]) is a collaborator of the module, not
    part of it: [regex] is written against any engine.  [flags] is the
    integer passed through to it.  An engine answers with a match or with
    none; a call on which [re.match] raises instead (a pattern it cannot
    compile, flags it refuses) is not described, and the statements on
    [regex] are about the answers of the engine. *)
Class RegexEngine := {
  Match : Type;
  re_match : string -> string -> Z -> option Match
}.

(** The one pattern compiled by the module itself, [RE_EMAIL_SIMPLE], is
    given as a syntax tree and matched by derivatives. *)
Inductive rx : Type :=
  | Never
  | Eps
  | Lit (c : ascii)
  | NotLit (c : ascii)
  | Seq (r1 r2 : rx)
  | Alt (r1 r2 : rx)
  | Star (r : rx).

Definition Plus (r : rx) : rx := Seq r (Star r).

Fixpoint nullable (r : rx) : bool :=
  match r with
  | Never | Lit _ | NotLit _ => false
  | Eps | Star _ => true
  | Seq r1 r2 => nullable r1 && nullable r2
  | Alt r1 r2 => nullable r1 || nullable r2
  end.

Fixpoint deriv (a : ascii) (r : rx) : rx :=
  match r with
  | Never | Eps => Never
  | Lit c => if Ascii.eqb a c then Eps else Never
  | NotLit c => if Ascii.eqb a c then Never else Eps
  | Seq r1 r2 =>
      if nullable r1
      then Alt (Seq (deriv a r1) r2) (deriv a r2)
      else Seq (deriv a r1) r2
  | Alt r1 r2 => Alt (deriv a r1) (deriv a r2)
  | Star r1 => Seq (deriv a r1) (Star r1)
  end.

(** The whole of [s] is in the language of [r]. *)
Fixpoint fullmatch (r : rx) (s : string) : bool :=
  match s with
  | EmptyString => nullable r
  | String a s' => fullmatch (deriv a r) s'
  end.

(** ** The module *)

Module Prompt.

(** Prompt that will be shown by default. *)
Definition PROMPT : string := "? ".

(** [re.compile(r"^[^@]+@[^@]+\.[^@]+$")]: the pattern is anchored at both
    ends, so [RE_EMAIL_SIMPLE.match(s)] succeeds when the whole line has the
    shape it describes. *)
Definition RE_EMAIL_SIMPLE : rx :=
  Seq (Plus (NotLit "@"))
   (Seq (Lit "@")
    (Seq (Plus (NotLit "@"))
     (Seq (Lit ".") (Plus (NotLit "@"))))).

(** [_make_prompt]: [not prompt] holds of a missing prompt and of the empty
    one; [made] is the prompt built in their place. *)

Definition _make_prompt {T} `{Obj T}
    (prompt : option string) (default : option T) : string :=
  let made :=
    if truthy default then "[" ++ str default ++ "]? " else PROMPT in
  match prompt with
  | Some p => if negb (truthy p) then made else p
  | None => made
  end.

(** ** The prompting functions *)

Fixpoint character (prompt : option string) (empty : bool)
    (default : option string)
    (stdin : list string) (tty : list event) {struct stdin}
  : run (option string) :=
  let tty := (tty ++ [Asked (_make_prompt prompt default)])%list in
  match stdin with
  | [] => (Raise EOFError, [], tty)
  | s :: stdin =>
      if negb (truthy s) then
        if is_not_None default then (Return default, stdin, tty)
        else if empty then (Return None, stdin, tty)
        else (falls_off_the_end, stdin, tty)
      else if (len s =? 1)%Z then (Return (Some s), stdin, tty)
      else character prompt empty None stdin tty
  end.

Fixpoint email (prompt : option string) (empty : bool) (mode : string)
    (default : option string)
    (stdin : list string) (tty : list event) {struct stdin}
  : run (option string) :=
  if String.eqb mode "simple" then
    let tty := (tty ++ [Asked (_make_prompt prompt default)])%list in
    match stdin with
    | [] => (Raise EOFError, [], tty)
    | s :: stdin =>
        if negb (truthy s) then
          if is_not_None default then (Return default, stdin, tty)
          else if empty then (Return None, stdin, tty)
          else (falls_off_the_end, stdin, tty)
        else
          if fullmatch RE_EMAIL_SIMPLE s then (Return (Some s), stdin, tty)
          else email prompt empty mode None stdin tty
    end
  else (Raise ValueError, stdin, tty).

Fixpoint integer (prompt : option string) (empty : bool)
    (default : option Z)
    (stdin : list string) (tty : list event) {struct stdin}
  : run (option Z) :=
  let tty := (tty ++ [Asked (_make_prompt prompt default)])%list in
  match stdin with
  | [] => (Raise EOFError, [], tty)
  | s :: stdin =>
      if negb (truthy s) then
        if is_not_None default then (Return default, stdin, tty)
        else if empty then (Return None, stdin, tty)
        else (falls_off_the_end, stdin, tty)
      else
        match int s with
        | Some z => (Return (Some z), stdin, tty)
        | None => integer prompt empty None stdin tty
        end
  end.

(** [real] is written against any type of floating point numbers with its
    truth value, its printing and its parser [float] ([None] for
    [ValueError]). *)
Fixpoint real {F} `{Obj F} (float : string -> option F)
    (prompt : option string) (empty : bool)
    (default : option F)
    (stdin : list string) (tty : list event) {struct stdin}
  : run (option F) :=
  let tty := (tty ++ [Asked (_make_prompt prompt default)])%list in
  match stdin with
  | [] => (Raise EOFError, [], tty)
  | s :: stdin =>
      if negb (truthy s) then
        if is_not_None default then (Return default, stdin, tty)
        else if empty then (Return None, stdin, tty)
        else (falls_off_the_end, stdin, tty)
      else
        match float s with
        | Some x => (Return (Some x), stdin, tty)
        | None => real float prompt empty None stdin tty
        end
  end.

Fixpoint regex `{E : RegexEngine} (pattern : string)
    (prompt : option string) (empty : bool) (flags : Z)
    (default : option string)
    (stdin : list string) (tty : list event) {struct stdin}
  : run (option Match) :=
  let tty := (tty ++ [Asked (_make_prompt prompt default)])%list in
  match stdin with
  | [] => (Raise EOFError, [], tty)
  | s :: stdin =>
      let matching (s : string) :=
        match re_match pattern s flags with
        | Some m => (Return (Some m), stdin, tty)
        | None => regex pattern prompt empty flags None stdin tty
        end in
      if negb (truthy s) then
        match default with
        | Some d => matching d
        | None =>
            if empty then (Return None, stdin, tty) else matching s
        end
      else matching s
  end.

Fixpoint secret (prompt : option string) (empty : bool)
    (default : option string)
    (stdin : list string) (tty : list event) {struct stdin}
  : run (option string) :=
  let tty := (tty ++ [AskedNoEcho (_make_prompt prompt default)])%list in
  match stdin with
  | [] => (Raise EOFError, [], tty)
  | s :: stdin =>
      if negb (truthy s) then
        if is_not_None default then (Return default, stdin, tty)
        else if empty then (Return None, stdin, tty)
        else (falls_off_the_end, stdin, tty)
      else
        if truthy s then (Return (Some s), stdin, tty)
        else secret prompt empty None stdin tty
  end.

(** The instruction shown when [choice] is called without one. *)
Definition default_instruction : string := "Select one of the following: ".

(** What [choice] prints above its prompt: the instruction, then every
    choice with its 1-based number. *)
Definition menu {A} `{Obj A} (choices : list A) (instruction : string)
  : list event :=
  Printed instruction ::
  map (fun '(num, cho) =>
         Printed ("    " ++ str (num + 1)%Z ++ ": " ++ str cho))
      (enumerate choices).

(** The [try] block of [choice]: [None] when it raises [ValueError] (the
    line is no integer, or names a position below 1) or [IndexError] (a
    position past the last choice). *)
Definition selected {A} (choices : list A) (s : string) : option A :=
  match int s with
  | None => None
  | Some i =>
      let num := (i - 1)%Z in
      if (num <? 0)%Z then None
      else nth_error choices (Z.to_nat num)
  end.

Fixpoint choice {A} `{Obj A} (choices : list A) (instruction : string)
    (prompt : option string) (empty : bool) (default : option A)
    (stdin : list string) (tty : list event) {struct stdin}
  : run (option A) :=
  if (Z.of_nat (List.length choices) <? 1)%Z
  then (Raise ValueError, stdin, tty)
  else
    let tty := (tty ++ menu choices instruction
                    ++ [Asked (_make_prompt prompt default)])%list in
    match stdin with
    | [] => (Raise EOFError, [], tty)
    | s :: stdin =>
        match selected choices s with
        | Some cho => (Return (Some cho), stdin, tty)
        | None =>
            if negb (truthy s) then
              if is_not_None default then (Return default, stdin, tty)
              else if empty then (Return None, stdin, tty)
              else (falls_off_the_end, stdin, tty)
            else choice choices instruction prompt empty None stdin tty
        end
    end.

(** The two local functions of [boolean], with the arguments of [boolean]
    they refer to made explicit. *)
Definition norm (sensitive : bool) (x : string) : string :=
  if sensitive then x else lower (str x).

(** Business logic for converting input to boolean; [None] stands for
    [ValueError]. *)
Definition to_bool (yes no : string) (sensitive partial : bool)
    (c : string) : option bool :=
  if partial && truthy (len c) then
    if startswith (norm sensitive yes) (norm sensitive c) then Some true
    else if startswith (norm sensitive no) (norm sensitive c) then Some false
    else None
  else
    if String.eqb (norm sensitive yes) (norm sensitive c) then Some true
    else if String.eqb (norm sensitive no) (norm sensitive c) then Some false
    else None.

(** The prompt [boolean] shows: the one it was given or, without one, both
    responses with the default (if any) in brackets. *)
Definition boolean_prompt (prompt : option string) (yes no : string)
    (default : option bool) : string :=
  match prompt with
  | None =>
      let y := match default with
               | Some true => "[" ++ str yes ++ "]"
               | _ => yes
               end in
      let n := match default with
               | Some false => "[" ++ str no ++ "]"
               | _ => no
               end in
      y ++ "/" ++ n ++ "? "
  | Some p => p
  end.

Fixpoint boolean (prompt : option string) (yes no : string)
    (default : option bool) (sensitive partial : bool)
    (stdin : list string) (tty : list event) {struct stdin}
  : run bool :=
  let prompt := boolean_prompt prompt yes no default in
  let tty := (tty ++ [Asked prompt])%list in
  match stdin with
  | [] => (Raise EOFError, [], tty)
  | s :: stdin =>
      match default, negb (truthy s) with
      | Some d, true => (Return d, stdin, tty)
      | _, _ =>
          match to_bool yes no sensitive partial s with
          | Some b => (Return b, stdin, tty)
          | None =>
              boolean (Some prompt) yes no default sensitive partial
                      stdin tty
          end
      end
  end.

Fixpoint string (prompt : option string) (empty : bool)
    (default : option String.string)
    (stdin : list String.string) (tty : list event) {struct stdin}
  : run (option String.string) :=
  let tty := (tty ++ [Asked (_make_prompt prompt default)])%list in
  match stdin with
  | [] => (Raise EOFError, [], tty)
  | s :: stdin =>
      if negb (truthy s) then
        if is_not_None default then (Return default, stdin, tty)
        else if empty then (Return None, stdin, tty)
        else (falls_off_the_end, stdin, tty)
      else
        if truthy s then (Return (Some s), stdin, tty)
        else string prompt empty None stdin tty
  end.

End Prompt.

(** ** What the specification says of the prompt text

    Written from the wording of the specification, to be compared with
    [Prompt._make_prompt]: a supplied prompt is used verbatim; otherwise a
    default that is set is rendered between brackets; otherwise the
    standard marker is used. *)
Definition make_prompt_as_specified {T} `{Obj T}
    (prompt : option string) (default : option T) : string :=
  match prompt with
  | Some p => p
  | None =>
      match default with
      | Some d => "[" ++ str d ++ "]? "
      | None => "? "
      end
  end.

(** ** An engine for literal patterns

    For a pattern without special characters and no flags, [re.match]
    succeeds when the text starts with the pattern; the match object is
    represented by the text matched ([m.group(0)]).  Used to run [regex] on
    concrete inputs. *)
Definition literal_engine : RegexEngine :=
  {| Match := string;
     re_match pattern s _ :=
       if startswith s pattern then Some pattern else None |}.

(** ** What the pattern of [email] describes *)

(** The strings a pattern stands for. *)
Inductive lang : rx -> string -> Prop :=
  | lang_eps : lang Eps ""
  | lang_lit c : lang (Lit c) (String c "")
  | lang_notlit c a : a <> c -> lang (NotLit c) (String a "")
  | lang_seq r1 r2 s1 s2 :
      lang r1 s1 -> lang r2 s2 -> lang (Seq r1 r2) (s1 ++ s2)
  | lang_alt_l r1 r2 s : lang r1 s -> lang (Alt r1 r2) s
  | lang_alt_r r1 r2 s : lang r2 s -> lang (Alt r1 r2) s
  | lang_star_nil r : lang (Star r) ""
  | lang_star_cons r s1 s2 :
      lang r s1 -> lang (Star r) s2 -> lang (Star r) (s1 ++ s2).

(** No character of [s] is an at sign. *)
Fixpoint no_at (s : string) : bool :=
  match s with
  | EmptyString => true
  | String c r => negb (Ascii.eqb c "@") && no_at r
  end.

(** One or more characters, none of them an at sign. *)
Definition part (s : string) : Prop := s <> "" /\ no_at s = true.

(** [local@domain.tld]: three parts, the first followed by an at sign and
    the second by a dot (the second and the third may hold more dots). *)
Definition email_shape (s : string) : Prop :=
  exists a b c,
    s = a ++ "@" ++ b ++ "." ++ c /\ part a /\ part b /\ part c.

(** ** What a retry loop writes *)

(** [attempts shown default n]: what [n] successive calls write when the
    first one holds [default] and each later one holds no default, [shown]
    being what a single call writes before it reads. *)
Definition attempts {D} (shown : option D -> list event)
    (default : option D) (n : nat) : list event :=
  match n with
  | O => []
  | S k => (shown default ++ List.concat (repeat (shown None) k))%list
  end.

(** The prompts of [n] successive calls of a function that writes its
    prompt and nothing else. *)
Definition prompts {T} `{Obj T} (prompt : option string)
    (default : option T) (n : nat) : list event :=
  match n with
  | O => []
  | S k =>
      Asked (Prompt._make_prompt prompt default)
      :: repeat (Asked (Prompt._make_prompt prompt (@None T))) k
  end.

(** The default a retry loop still holds once the lines [bad] have been
    rejected: its own when there was none to reject, none afterwards. *)
Definition held {D} (default : option D) (bad : list string) : option D :=
  match bad with [] => default | _ :: _ => None end.

(** * Properties *)

(** ** Shared facts *)

Lemma truthy_nonempty (s : string) : s <> "" -> truthy s = true.
Proof.
  intros Hs. destruct s as [|c r]; [contradiction | reflexivity].
Qed.

(** A sequence with a first element passes the test on the number of
    choices. *)
Lemma one_choice_suffices {A} (cho : A) (choices : list A) :
  (Z.of_nat (List.length (cho :: choices)) <? 1)%Z = false.
Proof.
  apply Z.ltb_ge. simpl List.length. lia.
Qed.

(** One step of [choice] on a sequence that has choices. *)
Lemma choice_step {A} `{Obj A} (cho : A) (choices : list A)
    instruction prompt empty default s stdin tty :
  Prompt.choice (cho :: choices) instruction prompt empty default
                (s :: stdin) tty =
  let tty' := (tty ++ Prompt.menu (cho :: choices) instruction
                   ++ [Asked (Prompt._make_prompt prompt default)])%list in
  match Prompt.selected (cho :: choices) s with
  | Some c => (Return (Some c), stdin, tty')
  | None =>
      if negb (truthy s) then
        if is_not_None default then (Return default, stdin, tty')
        else if empty then (Return None, stdin, tty')
        else (falls_off_the_end, stdin, tty')
      else Prompt.choice (cho :: choices) instruction prompt empty None
                         stdin tty'
  end.
Proof.
  cbn [Prompt.choice]. rewrite one_choice_suffices. reflexivity.
Qed.

(** ** The module's tests

    The runs of [tests/test_expected.py] and [tests/test_empty.py] that do
    not depend on floating point numbers or on a matching engine, with the
    patched [input] replaced by the lines it hands out. *)

Example test_character :
  fst (fst (Prompt.character None false None ["c"] [])) = Return (Some "c").
Proof. reflexivity. Qed.

Example test_email :
  fst (fst (Prompt.email None false "simple" None ["foo@bar.not"] [])) =
  Return (Some "foo@bar.not").
Proof. reflexivity. Qed.

Example test_integer :
  fst (fst (Prompt.integer None false None ["1"] [])) = Return (Some 1%Z).
Proof. reflexivity. Qed.

Example test_secret_string :
  fst (fst (Prompt.secret None false None ["foo123"] [])) =
    Return (Some "foo123") /\
  fst (fst (Prompt.string None false None ["foo123"] [])) =
    Return (Some "foo123").
Proof. split; reflexivity. Qed.

Example test_choice :
  fst (fst (Prompt.choice ["moe"; "curly"; "larry"]
              Prompt.default_instruction None false None ["1"] [])) =
  Return (Some "moe").
Proof. reflexivity. Qed.

Example test_boolean :
  Forall (fun yes =>
            fst (fst (Prompt.boolean None "yes" "n" None false true
                        [yes] [])) = Return true)
         ["y"; "ye"; "yes"] /\
  Forall (fun no =>
            fst (fst (Prompt.boolean None "y" "no" None false true
                        [no] [])) = Return false)
         ["n"; "no"] /\
  Prompt.boolean None "Y" "n" None true true ["y"; "Y"; "y"; "Y"] [] =
    (Return true, ["y"; "Y"], [Asked "Y/n? "; Asked "Y/n? "]) /\
  Prompt.boolean None "y" "N" None true true ["n"; "N"; "n"; "N"] [] =
    (Return false, ["n"; "N"], [Asked "y/N? "; Asked "y/N? "]).
Proof. repeat constructor. Qed.

Example test_empty :
  fst (fst (Prompt.character None true None [""] [])) = Return None /\
  fst (fst (Prompt.character None false (Some "c") [""] [])) =
    Return (Some "c") /\
  fst (fst (Prompt.email None true "simple" None [""] [])) = Return None /\
  fst (fst (Prompt.integer None false (Some 1%Z) [""] [])) =
    Return (Some 1%Z) /\
  fst (fst (Prompt.regex (E := literal_engine) "foo" None true 0 None
              [""] [])) = Return None /\
  fst (fst (Prompt.regex (E := literal_engine) "foo" None false 0
              (Some "foo") [""] [])) = Return (Some "foo") /\
  fst (fst (Prompt.secret None false (Some "shh") [""] [])) =
    Return (Some "shh") /\
  fst (fst (Prompt.choice [1%Z; 2%Z] Prompt.default_instruction None true
              None [""] [])) = Return None /\
  fst (fst (Prompt.choice [1%Z; 2%Z] Prompt.default_instruction None false
              (Some 1%Z) [""] [])) = Return (Some 1%Z) /\
  fst (fst (Prompt.boolean None "y" "n" (Some true) false true [""] [])) =
    Return true /\
  fst (fst (Prompt.boolean None "y" "n" (Some false) false true [""] [])) =
    Return false.
Proof. repeat split. Qed.

(** The white space [int] accepts around a literal, and a line that
    starts with the separator 0x1C, which it refuses: [integer] asks again
    on it. *)
Example int_white_space :
  int " 5 " = Some 5%Z /\
  int (String (ascii_of_nat 160) "5") = Some 5%Z /\
  int (String (ascii_of_nat 28) "5") = None /\
  Prompt.integer None false None [String (ascii_of_nat 28) "5"; "99"] [] =
    (Return (Some 99%Z), [], [Asked "? "; Asked "? "]).
Proof. repeat split. Qed.

(** ** Empty line, default set *)

(** The first line of a call.  In every kind of prompt but [regex], a call
    that holds a default and reads an empty line returns that default,
    whatever [empty] is: the default comes before the test on [empty], and
    the line is not validated (nothing is assumed of the default, nor of
    the parser [float] of [real]; [boolean] takes no [empty] argument). *)
Theorem empty_line_returns_default :
  forall (prompt : option string) (empty : bool)
         (stdin : list string) (tty : list event),
    (forall d,
        Prompt.character prompt empty (Some d) ("" :: stdin) tty =
        (Return (Some d), stdin,
         tty ++ [Asked (Prompt._make_prompt prompt (Some d))])%list) /\
    (forall d,
        Prompt.email prompt empty "simple" (Some d) ("" :: stdin) tty =
        (Return (Some d), stdin,
         tty ++ [Asked (Prompt._make_prompt prompt (Some d))])%list) /\
    (forall d,
        Prompt.integer prompt empty (Some d) ("" :: stdin) tty =
        (Return (Some d), stdin,
         tty ++ [Asked (Prompt._make_prompt prompt (Some d))])%list) /\
    (forall F (O : Obj F) (float : string -> option F) (d : F),
        Prompt.real float prompt empty (Some d) ("" :: stdin) tty =
        (Return (Some d), stdin,
         tty ++ [Asked (Prompt._make_prompt prompt (Some d))])%list) /\
    (forall d,
        Prompt.secret prompt empty (Some d) ("" :: stdin) tty =
        (Return (Some d), stdin,
         tty ++ [AskedNoEcho (Prompt._make_prompt prompt (Some d))])%list) /\
    (forall d,
        Prompt.string prompt empty (Some d) ("" :: stdin) tty =
        (Return (Some d), stdin,
         tty ++ [Asked (Prompt._make_prompt prompt (Some d))])%list) /\
    (forall A (O : Obj A) (cho : A) (choices : list A) instruction (d : A),
        Prompt.choice (cho :: choices) instruction prompt empty (Some d)
                      ("" :: stdin) tty =
        (Return (Some d), stdin,
         tty ++ Prompt.menu (cho :: choices) instruction
             ++ [Asked (Prompt._make_prompt prompt (Some d))])%list) /\
    (forall yes no sensitive partial (d : bool),
        Prompt.boolean prompt yes no (Some d) sensitive partial
                       ("" :: stdin) tty =
        (Return d, stdin,
         tty ++ [Asked (Prompt.boolean_prompt prompt yes no (Some d))])%list).
Proof.
  intros prompt empty stdin tty.
  repeat split; intros; try reflexivity.
  rewrite choice_step. reflexivity.
Qed.

(** ** Empty line, no default, empty responses not allowed *)

(** C1. With no default and [empty] false, an empty line does not make
    [character], [email], [integer], [real], [secret], [string] or [choice]
    ask again: the call ends there and returns [None], the very result of
    an allowed empty response.  The first equation is the call
    [character()] on the single line [""]. *)
Theorem empty_line_not_allowed_returns_None :
  Prompt.character None false None [""] [] =
    (Return None, [], [Asked "? "]) /\
  forall (prompt : option string) (stdin : list string) (tty : list event),
    Prompt.character prompt false None ("" :: stdin) tty =
      (Return None, stdin,
       tty ++ [Asked (Prompt._make_prompt prompt (@None string))])%list /\
    Prompt.email prompt false "simple" None ("" :: stdin) tty =
      (Return None, stdin,
       tty ++ [Asked (Prompt._make_prompt prompt (@None string))])%list /\
    Prompt.integer prompt false None ("" :: stdin) tty =
      (Return None, stdin,
       tty ++ [Asked (Prompt._make_prompt prompt (@None Z))])%list /\
    (forall F (O : Obj F) (float : string -> option F),
        Prompt.real float prompt false None ("" :: stdin) tty =
        (Return None, stdin,
         tty ++ [Asked (Prompt._make_prompt prompt (@None F))])%list) /\
    Prompt.secret prompt false None ("" :: stdin) tty =
      (Return None, stdin,
       tty ++ [AskedNoEcho (Prompt._make_prompt prompt (@None string))])%list /\
    Prompt.string prompt false None ("" :: stdin) tty =
      (Return None, stdin,
       tty ++ [Asked (Prompt._make_prompt prompt (@None string))])%list /\
    (forall A (O : Obj A) (cho : A) (choices : list A) instruction,
        Prompt.choice (cho :: choices) instruction prompt false None
                      ("" :: stdin) tty =
        (Return None, stdin,
         tty ++ Prompt.menu (cho :: choices) instruction
             ++ [Asked (Prompt._make_prompt prompt (@None A))])%list).
Proof.
  split; [reflexivity|].
  intros prompt stdin tty.
  repeat split; intros; try reflexivity.
  rewrite choice_step. reflexivity.
Qed.

(** ** Asking again after a rejected line *)

(** A line that [character] rejects makes it call itself with its prompt
    and [empty] only: the call that follows has no default. *)
Lemma character_retry prompt empty default s stdin tty :
  truthy s = true -> (len s =? 1)%Z = false ->
  Prompt.character prompt empty default (s :: stdin) tty =
  Prompt.character prompt empty None stdin
    (tty ++ [Asked (Prompt._make_prompt prompt default)])%list.
Proof.
  intros Hs Hlen. cbn [Prompt.character]. rewrite Hs, Hlen. reflexivity.
Qed.

(** C2. After a rejected line the call that asks again is not the first
    call over: [character], [email], [integer] and [choice], given a
    default and no prompt, show the default in the first prompt only, and
    the empty line that follows the rejected one returns [None], where the
    same empty line as first line returns the default. *)
Theorem retry_forgets_default :
  (Prompt.character None false (Some "c") ["ab"; ""] [] =
     (Return None, [], [Asked "[c]? "; Asked "? "]) /\
   Prompt.character None false (Some "c") [""] [] =
     (Return (Some "c"), [], [Asked "[c]? "])) /\
  (Prompt.email None false "simple" (Some "foo@test.com") ["foo"; ""] [] =
     (Return None, [], [Asked "[foo@test.com]? "; Asked "? "]) /\
   Prompt.email None false "simple" (Some "foo@test.com") [""] [] =
     (Return (Some "foo@test.com"), [], [Asked "[foo@test.com]? "])) /\
  (Prompt.integer None false (Some 1%Z) ["one"; ""] [] =
     (Return None, [], [Asked "[1]? "; Asked "? "]) /\
   Prompt.integer None false (Some 1%Z) [""] [] =
     (Return (Some 1%Z), [], [Asked "[1]? "])) /\
  (Prompt.choice [1%Z; 2%Z] "Pick:" None false (Some 1%Z) ["3"; ""] [] =
     (Return None, [],
      [Printed "Pick:"; Printed "    1: 1"; Printed "    2: 2";
       Asked "[1]? ";
       Printed "Pick:"; Printed "    1: 1"; Printed "    2: 2";
       Asked "? "]) /\
   Prompt.choice [1%Z; 2%Z] "Pick:" None false (Some 1%Z) [""] [] =
     (Return (Some 1%Z), [],
      [Printed "Pick:"; Printed "    1: 1"; Printed "    2: 2";
       Asked "[1]? "])).
Proof.
  repeat split; vm_compute; reflexivity.
Qed.

(** C3. An empty line does not always return the default that was
    supplied: [character], [email], [integer] and [choice], called with a
    default and with [empty] set, return the default for an empty first
    line, but after a rejected line the call that asks again holds no
    default, and the empty line then returns [None], the answer of an
    allowed empty response: [empty] wins over the default. *)
Theorem default_lost_after_rejected_line :
  (Prompt.character None true (Some "c") [""] [] =
     (Return (Some "c"), [], [Asked "[c]? "]) /\
   Prompt.character None true (Some "c") ["ab"; ""] [] =
     (Return None, [], [Asked "[c]? "; Asked "? "])) /\
  (Prompt.email None true "simple" (Some "foo@test.com") [""] [] =
     (Return (Some "foo@test.com"), [], [Asked "[foo@test.com]? "]) /\
   Prompt.email None true "simple" (Some "foo@test.com") ["foo"; ""] [] =
     (Return None, [], [Asked "[foo@test.com]? "; Asked "? "])) /\
  (Prompt.integer None true (Some 1%Z) [""] [] =
     (Return (Some 1%Z), [], [Asked "[1]? "]) /\
   Prompt.integer None true (Some 1%Z) ["one"; ""] [] =
     (Return None, [], [Asked "[1]? "; Asked "? "])) /\
  (Prompt.choice [1%Z; 2%Z] "Pick:" None true (Some 1%Z) [""] [] =
     (Return (Some 1%Z), [],
      [Printed "Pick:"; Printed "    1: 1"; Printed "    2: 2";
       Asked "[1]? "]) /\
   Prompt.choice [1%Z; 2%Z] "Pick:" None true (Some 1%Z) ["3"; ""] [] =
     (Return None, [],
      [Printed "Pick:"; Printed "    1: 1"; Printed "    2: 2";
       Asked "[1]? ";
       Printed "Pick:"; Printed "    1: 1"; Printed "    2: 2";
       Asked "? "])).
Proof.
  repeat split; vm_compute; reflexivity.
Qed.

(** ** The default of [regex] *)

(** C4. When [regex] has a default and reads an empty line, the default
    takes the place of the line and is matched: a match is returned, and
    without a match [regex] asks again.  The call that asks again has no
    default: when empty responses are allowed, a second empty line ends
    the loop with [None] although the default never matched. *)
Theorem regex_default_is_matched_once :
  forall (E : RegexEngine) (pattern : string) (prompt : option string)
         (flags : Z) (d : string) (stdin : list string) (tty : list event),
    (forall empty m,
        re_match pattern d flags = Some m ->
        Prompt.regex pattern prompt empty flags (Some d) ("" :: stdin) tty =
        (Return (Some m), stdin,
         tty ++ [Asked (Prompt._make_prompt prompt (Some d))])%list) /\
    (forall empty,
        re_match pattern d flags = None ->
        Prompt.regex pattern prompt empty flags (Some d) ("" :: stdin) tty =
        Prompt.regex pattern prompt empty flags None stdin
          (tty ++ [Asked (Prompt._make_prompt prompt (Some d))])%list) /\
    (re_match pattern d flags = None ->
     Prompt.regex pattern prompt true flags (Some d)
                  ("" :: "" :: stdin) tty =
     (Return None, stdin,
      tty ++ [Asked (Prompt._make_prompt prompt (Some d));
              Asked (Prompt._make_prompt prompt (@None string))])%list).
Proof.
  intros E pattern prompt flags d stdin tty.
  split; [|split].
  - intros empty m Hm. cbn [Prompt.regex]. cbn [truthy Obj_str negb String.eqb].
    rewrite Hm. reflexivity.
  - intros empty Hm. cbn [Prompt.regex]. cbn [truthy Obj_str negb String.eqb].
    rewrite Hm. reflexivity.
  - intros Hm. cbn [Prompt.regex]. cbn [truthy Obj_str negb String.eqb].
    rewrite Hm. rewrite <- app_assoc. reflexivity.
Qed.

Lemma regex_default_is_matched_once_witness :
  Prompt.regex (E := literal_engine) "foo" None false 0 (Some "food")
               [""] [] =
    (Return (Some "foo"), [], [Asked "[food]? "]) /\
  Prompt.regex (E := literal_engine) "foo" None false 0 (Some "bar")
               [""; "foo"] [] =
    Prompt.regex (E := literal_engine) "foo" None false 0 None
               ["foo"] [Asked "[bar]? "] /\
  Prompt.regex (E := literal_engine) "foo" None true 0 (Some "bar")
               [""; ""] [] =
    (Return None, [], [Asked "[bar]? "; Asked "? "]).
Proof.
  destruct (regex_default_is_matched_once literal_engine "foo" None 0 "food"
              [] []) as [Hhit _].
  destruct (regex_default_is_matched_once literal_engine "foo" None 0 "bar"
              ["foo"] []) as [_ [Hmiss _]].
  destruct (regex_default_is_matched_once literal_engine "foo" None 0 "bar"
              [] []) as [_ [_ Htwice]].
  split; [|split].
  - apply (Hhit false "foo"). reflexivity.
  - apply (Hmiss false). reflexivity.
  - apply Htwice. reflexivity.
Defined.

(** ** The prompt text *)

(** C5, the claim as it stands fails: a prompt that is supplied but empty
    is not shown as it is; the standard marker is shown in its place. *)
Lemma make_prompt_empty_prompt_not_verbatim :
  Prompt._make_prompt (Some "") (@None string) = "? " /\
  make_prompt_as_specified (Some "") (@None string) = "" /\
  Prompt._make_prompt (Some "") (@None string) <>
  make_prompt_as_specified (Some "") (@None string).
Proof.
  repeat split. discriminate.
Qed.

(** C5, amended. A supplied prompt that is not empty is shown as it is.
    Without a prompt, or with the empty one, a default that is set and
    counts as true is rendered as ["[<default>]? "], and when no default is
    set the marker ["? "] is shown. *)
Theorem make_prompt_cases :
  forall T (O : Obj T) (prompt : option string) (default : option T),
    (forall p, prompt = Some p -> p <> "" ->
               Prompt._make_prompt prompt default = p) /\
    (forall d, prompt = None \/ prompt = Some "" ->
               default = Some d -> truthy d = true ->
               Prompt._make_prompt prompt default = "[" ++ str d ++ "]? ") /\
    (prompt = None \/ prompt = Some "" ->
     default = None ->
     Prompt._make_prompt prompt default = "? ").
Proof.
  intros T O prompt default. split; [|split].
  - intros p -> Hp. unfold Prompt._make_prompt.
    rewrite (truthy_nonempty p Hp). reflexivity.
  - intros d Hprompt -> Hd.
    destruct Hprompt as [-> | ->]; unfold Prompt._make_prompt; simpl;
      rewrite Hd; reflexivity.
  - intros Hprompt ->.
    destruct Hprompt as [-> | ->]; reflexivity.
Qed.

Lemma make_prompt_cases_witness :
  Prompt._make_prompt (Some "Name: ") (Some "c") = "Name: " /\
  Prompt._make_prompt None (Some 5%Z) = "[5]? " /\
  Prompt._make_prompt (Some "") (@None Z) = "? ".
Proof.
  split; [|split].
  - apply (proj1 (make_prompt_cases string _ (Some "Name: ") (Some "c"))
             "Name: "); [reflexivity | discriminate].
  - exact (proj1 (proj2 (make_prompt_cases Z _ None (Some 5%Z))) 5%Z
             (or_introl eq_refl) eq_refl eq_refl).
  - apply (proj2 (proj2 (make_prompt_cases Z _ (Some "") None)));
      [right; reflexivity | reflexivity].
Defined.

(** ** Invalid arguments *)

(** C6. [choice] without any choice raises [ValueError] before it prints
    or reads anything, and [email] in a mode other than ["simple"] raises
    [ValueError] without asking or reading: standard input and the screen
    are left as they were, and the call is over. *)
Theorem invalid_arguments_raise_before_io :
  (forall A (O : Obj A) instruction prompt empty (default : option A)
          stdin tty,
      Prompt.choice [] instruction prompt empty default stdin tty =
      (Raise ValueError, stdin, tty)) /\
  (forall prompt empty mode default stdin tty,
      mode <> "simple" ->
      Prompt.email prompt empty mode default stdin tty =
      (Raise ValueError, stdin, tty)).
Proof.
  split.
  - intros. destruct stdin; reflexivity.
  - intros prompt empty mode default stdin tty Hmode.
    apply String.eqb_neq in Hmode.
    destruct stdin; cbn [Prompt.email]; rewrite Hmode; reflexivity.
Qed.

Lemma invalid_arguments_raise_before_io_witness :
  Prompt.email None false "strict" None ["foo@bar.not"] [] =
  (Raise ValueError, ["foo@bar.not"], []).
Proof.
  apply (proj2 invalid_arguments_raise_before_io).
  discriminate.
Defined.

(** ** Choosing from a sequence *)

(** The [try] block of [choice] yields an item exactly for a line that
    reads as a position between 1 and the number of choices, and the item
    is the one at that position. *)
Lemma selected_spec {A} (choices : list A) (s : string) (item : A) :
  Prompt.selected choices s = Some item <->
  exists i, int s = Some i /\
            (1 <= i <= Z.of_nat (List.length choices))%Z /\
            nth_error choices (Z.to_nat (i - 1)) = Some item.
Proof.
  unfold Prompt.selected. split.
  - destruct (int s) as [i|]; [|discriminate].
    destruct (Z.ltb_spec (i - 1) 0) as [Hneg|Hpos]; [discriminate|].
    intros Hnth. exists i. split; [reflexivity|]. split; [|exact Hnth].
    assert (Hlt : (Z.to_nat (i - 1) < List.length choices)%nat).
    { apply nth_error_Some. rewrite Hnth. discriminate. }
    lia.
  - intros (i & -> & Hrange & Hnth).
    destruct (Z.ltb_spec (i - 1) 0) as [Hneg|Hpos]; [lia | exact Hnth].
Qed.

Lemma selected_none {A} (choices : list A) (s : string) :
  (forall i, int s = Some i ->
             ~ (1 <= i <= Z.of_nat (List.length choices))%Z) ->
  Prompt.selected choices s = None.
Proof.
  intros Hbad.
  destruct (Prompt.selected choices s) as [item|] eqn:Hsel; [|reflexivity].
  apply selected_spec in Hsel. destruct Hsel as (i & Hint & Hrange & _).
  exfalso. exact (Hbad i Hint Hrange).
Qed.

(** Whatever it then reads, a call of [choice] first prints the instruction
    and the numbered choices and shows its prompt. *)
Lemma choice_shows_menu {A} `{Obj A} (cho : A) (choices : list A)
    instruction prompt empty stdin :
  forall default tty,
  exists more,
    snd (Prompt.choice (cho :: choices) instruction prompt empty default
                       stdin tty) =
    (tty ++ Prompt.menu (cho :: choices) instruction
         ++ Asked (Prompt._make_prompt prompt default) :: more)%list.
Proof.
  induction stdin as [|s stdin IH]; intros default tty.
  - exists []. cbn [Prompt.choice]. rewrite one_choice_suffices. reflexivity.
  - rewrite choice_step. cbv zeta.
    destruct (Prompt.selected (cho :: choices) s); [exists []; reflexivity|].
    destruct (negb (truthy s)).
    + destruct (is_not_None default); [exists []; reflexivity|].
      destruct empty; exists []; reflexivity.
    + destruct (IH None (tty ++ Prompt.menu (cho :: choices) instruction
                   ++ [Asked (Prompt._make_prompt prompt default)])%list)
        as [more Hmore].
      rewrite Hmore. eexists.
      rewrite <- !app_assoc. reflexivity.
Qed.

(** A run that has printed the choices a second time is not the run that
    returned at the first line: closes a goal where [Hrun] says the call
    returned having written [tty'] and [Hmore] says it wrote more. *)
Ltac now_shown_twice Hrun Hmore :=
  rewrite Hrun in Hmore; cbn [snd] in Hmore;
  match type of Hmore with
  | ?shown = _ =>
      rewrite <- (app_nil_r shown) in Hmore at 1;
      apply app_inv_head in Hmore; discriminate Hmore
  end.

(** C7. [choice] over [n] items, reading a line that is not empty: when the
    line reads as an integer [i] with [1 <= i <= n], the item at position
    [i - 1] (counting from 0) is returned; when it does not read as an
    integer, or reads as one out of that range, [choice] asks again on the
    lines that follow, and prints the instruction and the choices once
    more.  So the line is accepted (the call returns an item on reading
    it) if and only if it reads as such an [i]. *)
Theorem choice_accepts_exactly_valid_positions :
  forall A (O : Obj A) (cho : A) (choices : list A)
         (instruction : string) (prompt : option string) (empty : bool)
         (default : option A) (s : string)
         (stdin : list string) (tty : list event),
    s <> "" ->
    let items := cho :: choices in
    let n := Z.of_nat (List.length items) in
    let tty' := (tty ++ Prompt.menu items instruction
                     ++ [Asked (Prompt._make_prompt prompt default)])%list in
    (forall i,
        int s = Some i -> (1 <= i <= n)%Z ->
        exists item,
          nth_error items (Z.to_nat (i - 1)) = Some item /\
          Prompt.choice items instruction prompt empty default
                        (s :: stdin) tty =
          (Return (Some item), stdin, tty')) /\
    ((forall i, int s = Some i -> ~ (1 <= i <= n)%Z) ->
     Prompt.choice items instruction prompt empty default (s :: stdin) tty =
     Prompt.choice items instruction prompt empty None stdin tty' /\
     exists more,
       snd (Prompt.choice items instruction prompt empty default
                          (s :: stdin) tty) =
       (tty' ++ Prompt.menu items instruction ++ more)%list) /\
    ((exists item,
         Prompt.choice items instruction prompt empty default
                       (s :: stdin) tty =
         (Return (Some item), stdin, tty')) <->
     (exists i, int s = Some i /\ (1 <= i <= n)%Z)).
Proof.
  intros A O cho choices instruction prompt empty default s stdin tty Hs
         items n tty'.
  assert (Haccept : forall i,
    int s = Some i -> (1 <= i <= n)%Z ->
    exists item,
      nth_error items (Z.to_nat (i - 1)) = Some item /\
      Prompt.choice items instruction prompt empty default (s :: stdin) tty =
      (Return (Some item), stdin, tty')); [|
  assert (Hreject :
    (forall i, int s = Some i -> ~ (1 <= i <= n)%Z) ->
    Prompt.choice items instruction prompt empty default (s :: stdin) tty =
    Prompt.choice items instruction prompt empty None stdin tty' /\
    exists more,
      snd (Prompt.choice items instruction prompt empty default
                         (s :: stdin) tty) =
      (tty' ++ Prompt.menu items instruction ++ more)%list); [|
  split; [exact Haccept | split; [exact Hreject|]]]].
  - intros i Hint Hrange.
    assert (Hlt : (Z.to_nat (i - 1) < List.length items)%nat) by (subst n; lia).
    apply nth_error_Some in Hlt.
    destruct (nth_error items (Z.to_nat (i - 1))) as [item|] eqn:Hnth;
      [|contradiction].
    exists item. split; [reflexivity|].
    subst items. rewrite choice_step. cbv zeta.
    replace (Prompt.selected (cho :: choices) s) with (Some item);
      [reflexivity|].
    symmetry. apply selected_spec. exists i. auto.
  - intros Hbad.
    assert (Hstep :
      Prompt.choice items instruction prompt empty default (s :: stdin) tty =
      Prompt.choice items instruction prompt empty None stdin tty').
    { subst items. rewrite choice_step. cbv zeta.
      rewrite (selected_none _ _ Hbad), (truthy_nonempty s Hs). reflexivity. }
    split; [exact Hstep|].
    rewrite Hstep. subst items.
    destruct (choice_shows_menu cho choices instruction prompt empty stdin
                None tty') as [more Hmore].
    rewrite Hmore. eexists. reflexivity.
  - split.
    + intros [item Hrun].
      destruct (int s) as [i|] eqn:Hint.
      * destruct (Z_le_dec 1 i) as [Hlo|Hlo];
          [destruct (Z_le_dec i n) as [Hhi|Hhi]|].
        -- exists i. auto.
        -- exfalso.
           destruct Hreject as [_ [more Hmore]].
           { intros j Hj. injection Hj as <-. lia. }
           now_shown_twice Hrun Hmore.
        -- exfalso.
           destruct Hreject as [_ [more Hmore]].
           { intros j Hj. injection Hj as <-. lia. }
           now_shown_twice Hrun Hmore.
      * exfalso.
        destruct Hreject as [_ [more Hmore]]; [discriminate|].
        now_shown_twice Hrun Hmore.
    + intros (i & Hint & Hrange).
      destruct (Haccept i Hint Hrange) as [item [_ Hrun]].
      exists item. exact Hrun.
Qed.

Lemma choice_accepts_exactly_valid_positions_witness :
  Prompt.choice ["moe"; "curly"; "larry"] Prompt.default_instruction
                None false None ["1"] [] =
    (Return (Some "moe"), [],
     [Printed "Select one of the following: ";
      Printed "    1: moe"; Printed "    2: curly"; Printed "    3: larry";
      Asked "? "]) /\
  Prompt.choice ["moe"; "curly"; "larry"] Prompt.default_instruction
                None false None ["4"; "2"] [] =
  Prompt.choice ["moe"; "curly"; "larry"] Prompt.default_instruction
                None false None ["2"]
     [Printed "Select one of the following: ";
      Printed "    1: moe"; Printed "    2: curly"; Printed "    3: larry";
      Asked "? "].
Proof.
  split.
  - destruct (choice_accepts_exactly_valid_positions
                string _ "moe" ["curly"; "larry"] Prompt.default_instruction
                None false None "1" [] []) as [Hok _]; [discriminate|].
    destruct (Hok 1%Z eq_refl) as [item [Hitem Hrun]]; [simpl; lia|].
    injection Hitem as <-. exact Hrun.
  - destruct (choice_accepts_exactly_valid_positions
                string _ "moe" ["curly"; "larry"] Prompt.default_instruction
                None false None "4" ["2"] []) as [_ [Hko _]]; [discriminate|].
    apply Hko. intros i Hi. injection Hi as <-. simpl. lia.
Defined.

(** ** Yes or no *)

(** [boolean] calls itself with the prompt it has just shown; as the
    responses and the default are passed on as they are, this is the call
    with the prompt it was given. *)
Lemma boolean_prompt_fixed prompt yes no default sensitive partial stdin tty :
  Prompt.boolean (Some (Prompt.boolean_prompt prompt yes no default))
                 yes no default sensitive partial stdin tty =
  Prompt.boolean prompt yes no default sensitive partial stdin tty.
Proof.
  destruct stdin; reflexivity.
Qed.

(** A line that is not empty and that [to_bool] rejects makes [boolean]
    ask again with all its arguments, the default among them. *)
Lemma boolean_retry prompt yes no default sensitive partial s stdin tty :
  s <> "" ->
  Prompt.to_bool yes no sensitive partial s = None ->
  Prompt.boolean prompt yes no default sensitive partial (s :: stdin) tty =
  Prompt.boolean prompt yes no default sensitive partial stdin
    (tty ++ [Asked (Prompt.boolean_prompt prompt yes no default)])%list.
Proof.
  intros Hs Hno.
  rewrite <- (boolean_prompt_fixed prompt yes no default sensitive partial
                stdin).
  cbn [Prompt.boolean]. rewrite (truthy_nonempty s Hs), Hno.
  destruct default; reflexivity.
Qed.

(** With [partial] set, a line that is not empty is looked up as a prefix:
    of [yes] first, then of [no]. *)
Lemma to_bool_partial yes no sensitive s :
  s <> "" ->
  Prompt.to_bool yes no sensitive true s =
  if startswith (Prompt.norm sensitive yes) (Prompt.norm sensitive s)
  then Some true
  else if startswith (Prompt.norm sensitive no) (Prompt.norm sensitive s)
       then Some false
       else None.
Proof.
  intros Hs. unfold Prompt.to_bool.
  destruct s as [|c r]; [contradiction|]. reflexivity.
Qed.

(** C8. [boolean] with [partial] set, reading a line that is not empty:
    when the normalised [yes] starts with the normalised line the answer is
    [True], whether or not [no] starts with it too; otherwise, when the
    normalised [no] starts with it, the answer is [False]; when neither
    does, [boolean] asks again.  Normalising lowers the case unless
    [sensitive] is set. *)
Theorem boolean_prefix_yes_first :
  forall (prompt : option string) (yes no : string) (default : option bool)
         (sensitive : bool) (s : string)
         (stdin : list string) (tty : list event),
    s <> "" ->
    let tty' :=
      (tty ++ [Asked (Prompt.boolean_prompt prompt yes no default)])%list in
    let starts_with_line token :=
      startswith (if sensitive then token else lower token)
                 (if sensitive then s else lower s) in
    (starts_with_line yes = true ->
     Prompt.boolean prompt yes no default sensitive true (s :: stdin) tty =
     (Return true, stdin, tty')) /\
    (starts_with_line yes = false -> starts_with_line no = true ->
     Prompt.boolean prompt yes no default sensitive true (s :: stdin) tty =
     (Return false, stdin, tty')) /\
    (starts_with_line yes = false -> starts_with_line no = false ->
     Prompt.boolean prompt yes no default sensitive true (s :: stdin) tty =
     Prompt.boolean prompt yes no default sensitive true stdin tty').
Proof.
  intros prompt yes no default sensitive s stdin tty Hs tty' starts_with_line.
  assert (Hto := to_bool_partial yes no sensitive s Hs).
  change (startswith (Prompt.norm sensitive yes) (Prompt.norm sensitive s))
    with (starts_with_line yes) in Hto.
  change (startswith (Prompt.norm sensitive no) (Prompt.norm sensitive s))
    with (starts_with_line no) in Hto.
  split; [|split].
  - intros Hyes. rewrite Hyes in Hto.
    cbn [Prompt.boolean]. rewrite (truthy_nonempty s Hs), Hto.
    destruct default; reflexivity.
  - intros Hyes Hnot. rewrite Hyes, Hnot in Hto.
    cbn [Prompt.boolean]. rewrite (truthy_nonempty s Hs), Hto.
    destruct default; reflexivity.
  - intros Hyes Hnot. rewrite Hyes, Hnot in Hto.
    apply boolean_retry; assumption.
Qed.

Lemma boolean_prefix_yes_first_witness :
  Prompt.boolean None "yes" "n" None false true ["YE"] [] =
    (Return true, [], [Asked "yes/n? "]) /\
  Prompt.boolean None "no" "n" None false true ["n"] [] =
    (Return true, [], [Asked "no/n? "]) /\
  Prompt.boolean None "yes" "no" None false true ["n"] [] =
    (Return false, [], [Asked "yes/no? "]) /\
  Prompt.boolean None "yes" "no" None false true ["x"; "y"] [] =
  Prompt.boolean None "yes" "no" None false true ["y"] [Asked "yes/no? "].
Proof.
  split; [|split; [|split]].
  - apply (boolean_prefix_yes_first None "yes" "n" None false "YE" [] []);
      [discriminate | reflexivity].
  - apply (boolean_prefix_yes_first None "no" "n" None false "n" [] []);
      [discriminate | reflexivity].
  - apply (boolean_prefix_yes_first None "yes" "no" None false "n" [] []);
      [discriminate | reflexivity | reflexivity].
  - apply (boolean_prefix_yes_first None "yes" "no" None false "x" ["y"] []);
      [discriminate | reflexivity | reflexivity].
Defined.

(** C10. Every time [boolean] asks again after a line that is not empty and
    matches neither response, it does so with all its arguments, the
    default among them; hence after any number of such lines an empty line
    returns the default, every prompt shown being the same. *)
Theorem boolean_keeps_default :
  forall (prompt : option string) (yes no : string) (d : bool)
         (sensitive partial : bool) (rejected : list string)
         (stdin : list string) (tty : list event),
    Forall (fun s => s <> "" /\
                     Prompt.to_bool yes no sensitive partial s = None)
           rejected ->
    Prompt.boolean prompt yes no (Some d) sensitive partial
                   (rejected ++ stdin) tty =
    Prompt.boolean prompt yes no (Some d) sensitive partial stdin
      (tty ++ repeat (Asked (Prompt.boolean_prompt prompt yes no (Some d)))
                     (List.length rejected))%list /\
    Prompt.boolean prompt yes no (Some d) sensitive partial
                   (rejected ++ "" :: stdin) tty =
    (Return d, stdin,
     tty ++ repeat (Asked (Prompt.boolean_prompt prompt yes no (Some d)))
                   (S (List.length rejected)))%list.
Proof.
  intros prompt yes no d sensitive partial rejected stdin tty Hrej.
  assert (Hloop : forall rest tty0,
    Prompt.boolean prompt yes no (Some d) sensitive partial
                   (rejected ++ rest) tty0 =
    Prompt.boolean prompt yes no (Some d) sensitive partial rest
      (tty0 ++ repeat (Asked (Prompt.boolean_prompt prompt yes no (Some d)))
                      (List.length rejected))%list).
  { intros rest. induction Hrej as [|s rejected [Hs Hno] _ IH]; intros tty0.
    - simpl. rewrite app_nil_r. reflexivity.
    - cbn [app List.length repeat].
      rewrite (boolean_retry _ _ _ _ _ _ _ _ _ Hs Hno), IH, <- app_assoc.
      reflexivity. }
  split; [apply Hloop|].
  rewrite Hloop.
  change (S (List.length rejected)) with (1 + List.length rejected)%nat.
  rewrite Nat.add_comm, repeat_app, app_assoc. reflexivity.
Qed.

Lemma boolean_keeps_default_witness :
  Prompt.boolean None "yes" "no" (Some false) false true
                 ["maybe"; "x"; ""; "y"] [] =
  (Return false, ["y"],
   [Asked "yes/[no]? "; Asked "yes/[no]? "; Asked "yes/[no]? "]).
Proof.
  apply (boolean_keeps_default None "yes" "no" false false true
           ["maybe"; "x"] ["y"] []).
  repeat constructor; discriminate.
Defined.

(** ** An empty line under [regex] *)

(** C9. [regex] without a default and with [empty] false matches an empty
    line against the pattern like any other line: when the pattern matches
    the empty string the match is returned, and only when it does not is
    the prompt shown again. *)
Theorem regex_empty_line_is_matched :
  forall (E : RegexEngine) (pattern : string) (prompt : option string)
         (flags : Z) (stdin : list string) (tty : list event),
    let tty' :=
      (tty ++ [Asked (Prompt._make_prompt prompt (@None string))])%list in
    (forall m,
        re_match pattern "" flags = Some m ->
        Prompt.regex pattern prompt false flags None ("" :: stdin) tty =
        (Return (Some m), stdin, tty')) /\
    (re_match pattern "" flags = None ->
     Prompt.regex pattern prompt false flags None ("" :: stdin) tty =
     Prompt.regex pattern prompt false flags None stdin tty').
Proof.
  intros E pattern prompt flags stdin tty tty'.
  split.
  - intros m Hm. cbn [Prompt.regex]. cbn [truthy Obj_str negb String.eqb].
    rewrite Hm. reflexivity.
  - intros Hm. cbn [Prompt.regex]. cbn [truthy Obj_str negb String.eqb].
    rewrite Hm. reflexivity.
Qed.

Lemma regex_empty_line_is_matched_witness :
  Prompt.regex (E := literal_engine) "" None false 0 None [""] [] =
    (Return (Some ""), [], [Asked "? "]) /\
  Prompt.regex (E := literal_engine) "foo" None false 0 None [""; "foo"] [] =
  Prompt.regex (E := literal_engine) "foo" None false 0 None ["foo"]
               [Asked "? "].
Proof.
  split.
  - apply (regex_empty_line_is_matched literal_engine "" None 0 [] []).
    reflexivity.
  - apply (regex_empty_line_is_matched literal_engine "foo" None 0
             ["foo"] []).
    reflexivity.
Defined.

(** * Further properties *)

(** ** Strings *)

Lemma append_nil_r (s : string) : s ++ "" = s.
Proof. induction s as [|c s IH]; simpl; [|rewrite IH]; reflexivity. Qed.

Lemma append_assoc (s1 s2 s3 : string) : (s1 ++ s2) ++ s3 = s1 ++ s2 ++ s3.
Proof. induction s1 as [|c s1 IH]; simpl; [|rewrite IH]; reflexivity. Qed.

Lemma append_eq_nil (s1 s2 : string) : s1 ++ s2 = "" -> s1 = "" /\ s2 = "".
Proof. destruct s1; simpl; [auto | discriminate]. Qed.

Lemma no_at_app (s1 s2 : string) :
  no_at (s1 ++ s2) = no_at s1 && no_at s2.
Proof.
  induction s1 as [|c s1 IH]; simpl; [reflexivity|].
  rewrite IH, andb_assoc. reflexivity.
Qed.

(** ** Matching by derivatives is matching *)

Lemma nullable_lang (r : rx) : nullable r = true <-> lang r "".
Proof.
  split.
  - induction r; simpl; intros Hn; try discriminate.
    + constructor.
    + apply andb_prop in Hn. destruct Hn as [H1 H2].
      change "" with ("" ++ ""). constructor; auto.
    + apply orb_prop in Hn. destruct Hn; [apply lang_alt_l | apply lang_alt_r]; auto.
    + constructor.
  - intros Hl. remember "" as s eqn:Hs.
    induction Hl; simpl; try discriminate; try reflexivity.
    + apply append_eq_nil in Hs. destruct Hs. rewrite IHHl1, IHHl2; auto.
    + rewrite IHHl; auto.
    + rewrite IHHl; auto using orb_true_r.
Qed.

Lemma deriv_sound (a : ascii) (r : rx) :
  forall s, lang (deriv a r) s -> lang r (String a s).
Proof.
  induction r; simpl; intros s Hl.
  - inversion Hl.
  - inversion Hl.
  - destruct (Ascii.eqb_spec a c) as [->|]; inversion Hl. constructor.
  - destruct (Ascii.eqb_spec a c) as [->|]; inversion Hl. constructor; assumption.
  - destruct (nullable r1) eqn:Hn.
    + inversion Hl as [| | | | ? ? ? Hl' | ? ? ? Hl' | |]; subst.
      * inversion Hl'; subst.
        change (String a (s1 ++ s2)) with (String a s1 ++ s2).
        constructor; auto.
      * change (String a s) with ("" ++ String a s).
        constructor; [apply nullable_lang; assumption | auto].
    + inversion Hl; subst.
      change (String a (s1 ++ s2)) with (String a s1 ++ s2).
      constructor; auto.
  - inversion Hl; subst; [apply lang_alt_l | apply lang_alt_r]; auto.
  - inversion Hl; subst.
    change (String a (s1 ++ s2)) with (String a s1 ++ s2).
    constructor; auto.
Qed.

Lemma deriv_complete (a : ascii) (r : rx) (t : string) :
  lang r t -> forall s, t = String a s -> lang (deriv a r) s.
Proof.
  induction 1 as [ | c | c b Hb | r1 r2 s1 s2 H1 IH1 H2 IH2
                 | r1 r2 s0 H1 IH1 | r1 r2 s0 H2 IH2 | r
                 | r s1 s2 H1 IH1 H2 IH2 ];
    intros s Ht; simpl.
  - discriminate.
  - injection Ht as <- <-. rewrite Ascii.eqb_refl. constructor.
  - injection Ht as <- <-.
    destruct (Ascii.eqb_spec b c); [contradiction | constructor].
  - destruct s1 as [|b s1]; simpl in Ht.
    + assert (Hn : nullable r1 = true) by (apply nullable_lang; assumption).
      rewrite Hn. apply lang_alt_r. auto.
    + injection Ht as -> <-.
      destruct (nullable r1);
        [apply lang_alt_l|]; constructor; auto.
  - apply lang_alt_l; auto.
  - apply lang_alt_r; auto.
  - discriminate.
  - destruct s1 as [|b s1]; simpl in Ht.
    + apply (IH2 s Ht).
    + injection Ht as -> <-. constructor; auto.
Qed.

Lemma fullmatch_lang (r : rx) (s : string) :
  fullmatch r s = true <-> lang r s.
Proof.
  revert r. induction s as [|a s IH]; intros r; simpl.
  - apply nullable_lang.
  - rewrite IH. split.
    + apply deriv_sound.
    + intros Hl. apply (deriv_complete a r _ Hl). reflexivity.
Qed.

(** ** The pattern of [email] *)

Lemma star_not_at (s : string) :
  lang (Star (NotLit "@")) s <-> no_at s = true.
Proof.
  split.
  - intros Hl. remember (Star (NotLit "@")) as r eqn:Hr.
    induction Hl; try discriminate; [reflexivity|].
    injection Hr as ->. rewrite no_at_app, IHHl2 by reflexivity.
    inversion Hl1 as [| |? a Ha| | | | |]; subst. simpl.
    destruct (Ascii.eqb_spec a "@"); [contradiction | reflexivity].
  - induction s as [|c s IH]; simpl; intros Hs; [constructor|].
    apply andb_prop in Hs. destruct Hs as [Hc Hs].
    change (String c s) with (String c "" ++ s).
    constructor; [|auto]. constructor.
    intros ->. discriminate Hc.
Qed.

Lemma plus_not_at (s : string) : lang (Plus (NotLit "@")) s <-> part s.
Proof.
  unfold Plus, part. split.
  - intros Hl. inversion Hl as [| | |? ? s1 s2 H1 H2| | | |]; subst.
    apply star_not_at in H2.
    inversion H1 as [| |? a Ha| | | | |]; subst. simpl.
    split; [discriminate|].
    rewrite H2. destruct (Ascii.eqb_spec a "@"); [contradiction | reflexivity].
  - intros [Hne Hs]. destruct s as [|c s]; [contradiction|].
    simpl in Hs. apply andb_prop in Hs. destruct Hs as [Hc Hs].
    change (String c s) with (String c "" ++ s).
    constructor; [|apply star_not_at; assumption].
    constructor. intros ->. discriminate Hc.
Qed.

(** ** Retry loops

    The prompting functions that ask again share one scheme: a rejected
    line makes the function call itself on the lines that follow, without
    its default. *)

Lemma concat_repeat_snoc {X} (x : list X) (k : nat) :
  (List.concat (repeat x k) ++ x)%list = List.concat (repeat x (S k)).
Proof.
  induction k as [|k IH]; simpl.
  - rewrite app_nil_r. reflexivity.
  - rewrite <- app_assoc, IH. reflexivity.
Qed.

Lemma concat_repeat_single {X} (x : X) (k : nat) :
  List.concat (repeat [x] k) = repeat x k.
Proof.
  induction k as [|k IH]; simpl; [|rewrite IH]; reflexivity.
Qed.

Lemma attempts_single {T} `{Obj T} (prompt : option string)
    (default : option T) (n : nat) :
  attempts (fun d => [Asked (Prompt._make_prompt prompt d)]) default n =
  prompts prompt default n.
Proof.
  destruct n as [|k]; simpl; [reflexivity|].
  rewrite concat_repeat_single. reflexivity.
Qed.

Section RetryLoop.

Context {D R : Type}.
Variable f : option D -> list string -> list event -> run R.
Variable shown : option D -> list event.
Variable rejected : string -> Prop.

Hypothesis f_retries :
  forall default s stdin tty,
    rejected s ->
    f default (s :: stdin) tty = f None stdin (tty ++ shown default)%list.

Lemma attempts_next (default : option D) (bad : list string) :
  (attempts shown default (List.length bad) ++ shown (held default bad))%list =
  attempts shown default (S (List.length bad)).
Proof.
  destruct bad as [|s bad]; simpl.
  - rewrite app_nil_r. reflexivity.
  - rewrite <- app_assoc.
    rewrite (concat_repeat_snoc (shown None) (List.length bad)).
    reflexivity.
Qed.

Lemma attempts_without_default (k : nat) :
  attempts shown None k = List.concat (repeat (shown None) k).
Proof.
  destruct k; reflexivity.
Qed.

Lemma held_twice (default : option D) (s : string) (bad : list string) :
  held (@None D) bad = held default (s :: bad).
Proof.
  destruct bad; reflexivity.
Qed.

Lemma rejected_lines_are_skipped (bad : list string) :
  Forall rejected bad ->
  forall default stdin tty,
    f default (bad ++ stdin)%list tty =
    f (held default bad) stdin
      (tty ++ attempts shown default (List.length bad))%list.
Proof.
  induction 1 as [|s bad Hs Hbad IH]; intros default stdin tty.
  - simpl. rewrite app_nil_r. reflexivity.
  - cbn [app]. rewrite (f_retries _ _ _ _ Hs), IH.
    rewrite (held_twice default s bad), attempts_without_default.
    rewrite <- app_assoc. reflexivity.
Qed.

Lemma first_accepted_line_wins (bad : list string) (good : string) (r : R) :
  Forall rejected bad ->
  (forall default stdin tty,
      f default (good :: stdin) tty =
      (Return r, stdin, tty ++ shown default)%list) ->
  forall default stdin tty,
    f default (bad ++ good :: stdin)%list tty =
    (Return r, stdin,
     tty ++ attempts shown default (S (List.length bad)))%list.
Proof.
  intros Hbad Hgood default stdin tty.
  rewrite (rejected_lines_are_skipped bad Hbad), Hgood.
  rewrite <- app_assoc, attempts_next. reflexivity.
Qed.

End RetryLoop.

(** ** [character], [integer], [real], [email], [regex]: the first line
       that is accepted *)

Lemma length_two_rejected (s : string) :
  (2 <= String.length s)%nat -> truthy s = true /\ (len s =? 1)%Z = false.
Proof.
  intros Hlen. split.
  - destruct s; [simpl in Hlen; lia | reflexivity].
  - apply Z.eqb_neq. unfold len. lia.
Qed.

(** X1. [character] passes over every line of two characters or more and
    returns the first line of exactly one character, whatever the
    character; it shows one prompt for each line read, the first made
    with the default and the later ones without. *)
Theorem character_returns_first_single_character :
  forall (prompt : option string) (empty : bool) (default : option string)
         (bad : list string) (good : string)
         (stdin : list string) (tty : list event),
    Forall (fun s => (2 <= String.length s)%nat) bad ->
    String.length good = 1%nat ->
    Prompt.character prompt empty default (bad ++ good :: stdin)%list tty =
    (Return (Some good), stdin,
     tty ++ prompts prompt default (S (List.length bad)))%list.
Proof.
  intros prompt empty default bad good stdin tty Hbad Hgood.
  rewrite <- attempts_single.
  apply (first_accepted_line_wins (Prompt.character prompt empty)
           (fun d => [Asked (Prompt._make_prompt prompt d)])
           (fun s => (2 <= String.length s)%nat)).
  - intros d s rest out Hs. apply length_two_rejected in Hs.
    destruct Hs. apply character_retry; assumption.
  - exact Hbad.
  - intros d rest out. cbn [Prompt.character].
    destruct good as [|c [|c' r]]; try discriminate. reflexivity.
Qed.

Lemma character_returns_first_single_character_witness :
  Prompt.character None false None ["ab"; "xyz"; " "; "q"] [] =
  (Return (Some " "), ["q"], [Asked "? "; Asked "? "; Asked "? "]).
Proof.
  apply (character_returns_first_single_character None false None
           ["ab"; "xyz"] " " ["q"] []).
  - repeat constructor.
  - reflexivity.
Defined.

Lemma int_of_empty_line (s : string) (z : Z) : int s = Some z -> s <> "".
Proof.
  intros Hint ->. discriminate Hint.
Qed.

Lemma integer_retry prompt empty default s stdin tty :
  s <> "" -> int s = None ->
  Prompt.integer prompt empty default (s :: stdin) tty =
  Prompt.integer prompt empty None stdin
    (tty ++ [Asked (Prompt._make_prompt prompt default)])%list.
Proof.
  intros Hs Hint. cbn [Prompt.integer].
  rewrite (truthy_nonempty s Hs), Hint. reflexivity.
Qed.

(** X2. [integer] passes over every non-empty line that is no integer
    literal and returns the value of the first line that is one; it shows
    one prompt for each line read, the first made with the default and the
    later ones without. *)
Theorem integer_returns_first_integer :
  forall (prompt : option string) (empty : bool) (default : option Z)
         (bad : list string) (good : string) (z : Z)
         (stdin : list string) (tty : list event),
    Forall (fun s => s <> "" /\ int s = None) bad ->
    int good = Some z ->
    Prompt.integer prompt empty default (bad ++ good :: stdin)%list tty =
    (Return (Some z), stdin,
     tty ++ prompts prompt default (S (List.length bad)))%list.
Proof.
  intros prompt empty default bad good z stdin tty Hbad Hgood.
  rewrite <- attempts_single.
  apply (first_accepted_line_wins (Prompt.integer prompt empty)
           (fun d => [Asked (Prompt._make_prompt prompt d)])
           (fun s => s <> "" /\ int s = None)).
  - intros d s rest out [Hs Hint]. apply integer_retry; assumption.
  - exact Hbad.
  - intros d rest out. cbn [Prompt.integer].
    rewrite (truthy_nonempty good (int_of_empty_line good z Hgood)), Hgood.
    reflexivity.
Qed.

Lemma integer_returns_first_integer_witness :
  Prompt.integer None false None ["one"; "1.5"; " -12 "; "7"] [] =
  (Return (Some (-12)%Z), ["7"], [Asked "? "; Asked "? "; Asked "? "]).
Proof.
  apply (integer_returns_first_integer None false None
           ["one"; "1.5"] " -12 " (-12)%Z ["7"] []).
  - repeat constructor; discriminate.
  - reflexivity.
Defined.

(** X3. [real] passes over every non-empty line that [float] rejects and
    returns the number [float] makes of the first line it accepts, whatever
    the parser [float] is. *)
Theorem real_returns_first_number :
  forall F (O : Obj F) (float : string -> option F)
         (prompt : option string) (empty : bool) (default : option F)
         (bad : list string) (good : string) (x : F)
         (stdin : list string) (tty : list event),
    Forall (fun s => s <> "" /\ float s = None) bad ->
    good <> "" -> float good = Some x ->
    Prompt.real float prompt empty default (bad ++ good :: stdin)%list tty =
    (Return (Some x), stdin,
     tty ++ prompts prompt default (S (List.length bad)))%list.
Proof.
  intros F O float prompt empty default bad good x stdin tty Hbad Hne Hgood.
  rewrite <- attempts_single.
  apply (first_accepted_line_wins (Prompt.real float prompt empty)
           (fun d => [Asked (Prompt._make_prompt prompt d)])
           (fun s => s <> "" /\ float s = None)).
  - intros d s rest out [Hs Hfl]. cbn [Prompt.real].
    rewrite (truthy_nonempty s Hs), Hfl. reflexivity.
  - exact Hbad.
  - intros d rest out. cbn [Prompt.real].
    rewrite (truthy_nonempty good Hne), Hgood. reflexivity.
Qed.

(** A run of [real] with the integers standing for the numbers and [int]
    for the parser. *)
Lemma real_returns_first_number_witness :
  Prompt.real int None false None ["x"; "10"; "11"] [] =
  (Return (Some 10%Z), ["11"], [Asked "? "; Asked "? "]).
Proof.
  apply (real_returns_first_number Z _ int None false None
           ["x"] "10" 10%Z ["11"] []).
  - repeat constructor; discriminate.
  - discriminate.
  - reflexivity.
Defined.

Lemma email_retry prompt empty default s stdin tty :
  s <> "" -> fullmatch Prompt.RE_EMAIL_SIMPLE s = false ->
  Prompt.email prompt empty "simple" default (s :: stdin) tty =
  Prompt.email prompt empty "simple" None stdin
    (tty ++ [Asked (Prompt._make_prompt prompt default)])%list.
Proof.
  intros Hs Hm. cbn [Prompt.email String.eqb Ascii.eqb Bool.eqb].
  rewrite (truthy_nonempty s Hs), Hm. reflexivity.
Qed.

Lemma email_pattern_shape (s : string) :
  fullmatch Prompt.RE_EMAIL_SIMPLE s = true <-> email_shape s.
Proof.
  rewrite fullmatch_lang. unfold Prompt.RE_EMAIL_SIMPLE, email_shape. split.
  - intros Hl.
    inversion Hl as [| | |? ? a r1 Ha H1| | | |]; subst.
    inversion H1 as [| | |? ? at1 r2 Hat H2| | | |]; subst.
    inversion H2 as [| | |? ? b r3 Hb H3| | | |]; subst.
    inversion H3 as [| | |? ? dot c Hdot Hc| | | |]; subst.
    inversion Hat; subst. inversion Hdot; subst.
    exists a, b, c. repeat split; try (apply plus_not_at; assumption).
  - intros (a & b & c & -> & Ha & Hb & Hc).
    constructor; [apply plus_not_at; assumption|].
    change ("@" ++ b ++ "." ++ c) with (String "@" "" ++ b ++ "." ++ c).
    constructor; [constructor|].
    constructor; [apply plus_not_at; assumption|].
    change ("." ++ c) with (String "." "" ++ c).
    constructor; [constructor | apply plus_not_at; assumption].
Qed.

Lemma email_shape_nonempty (s : string) : email_shape s -> s <> "".
Proof.
  intros (a & b & c & -> & [Ha _] & _) Hs.
  apply append_eq_nil in Hs. destruct Hs. contradiction.
Qed.

Lemma email_pattern_rejects (s : string) :
  ~ email_shape s -> fullmatch Prompt.RE_EMAIL_SIMPLE s = false.
Proof.
  intros Hno. apply not_true_is_false. intros Hm.
  apply Hno, email_pattern_shape, Hm.
Qed.

(** X4. What [email] accepts: [RE_EMAIL_SIMPLE] matches a line exactly when
    the line is made of three parts, each of one or more characters other
    than the at sign, the first followed by an at sign and the second by a
    dot.  Such a line is returned as it is; any other non-empty line makes
    [email] ask again. *)
Theorem email_accepts_addresses_only :
  forall (prompt : option string) (empty : bool) (default : option string)
         (s : string) (stdin : list string) (tty : list event),
    let tty' :=
      (tty ++ [Asked (Prompt._make_prompt prompt default)])%list in
    (fullmatch Prompt.RE_EMAIL_SIMPLE s = true <-> email_shape s) /\
    (email_shape s ->
     Prompt.email prompt empty "simple" default (s :: stdin) tty =
     (Return (Some s), stdin, tty')) /\
    (s <> "" -> ~ email_shape s ->
     Prompt.email prompt empty "simple" default (s :: stdin) tty =
     Prompt.email prompt empty "simple" None stdin tty').
Proof.
  intros prompt empty default s stdin tty tty'.
  split; [apply email_pattern_shape | split].
  - intros Hshape.
    assert (Hs := email_shape_nonempty s Hshape).
    apply email_pattern_shape in Hshape.
    cbn [Prompt.email String.eqb Ascii.eqb Bool.eqb].
    rewrite (truthy_nonempty s Hs), Hshape. reflexivity.
  - intros Hs Hno. apply email_retry; [exact Hs|].
    apply email_pattern_rejects, Hno.
Qed.

Lemma email_accepts_addresses_only_witness :
  Prompt.email None false "simple" None ["foo@bar.not"; "x"] [] =
    (Return (Some "foo@bar.not"), ["x"], [Asked "? "]) /\
  Prompt.email None false "simple" None ["foo@bar"; "x"] [] =
  Prompt.email None false "simple" None ["x"] [Asked "? "].
Proof.
  split.
  - apply (email_accepts_addresses_only None false None "foo@bar.not" ["x"] []).
    exists "foo", "bar", "not". repeat split; discriminate.
  - apply (email_accepts_addresses_only None false None "foo@bar" ["x"] []).
    + discriminate.
    + intros Hshape. apply email_pattern_shape in Hshape. discriminate Hshape.
Defined.

(** X5. [email] passes over every non-empty line that has not the shape of
    an address and returns the first line that has it, unchanged. *)
Theorem email_returns_first_address :
  forall (prompt : option string) (empty : bool) (default : option string)
         (bad : list string) (good : string)
         (stdin : list string) (tty : list event),
    Forall (fun s => s <> "" /\ ~ email_shape s) bad ->
    email_shape good ->
    Prompt.email prompt empty "simple" default (bad ++ good :: stdin)%list tty =
    (Return (Some good), stdin,
     tty ++ prompts prompt default (S (List.length bad)))%list.
Proof.
  intros prompt empty default bad good stdin tty Hbad Hgood.
  rewrite <- attempts_single.
  apply (first_accepted_line_wins (Prompt.email prompt empty "simple")
           (fun d => [Asked (Prompt._make_prompt prompt d)])
           (fun s => s <> "" /\ ~ email_shape s)).
  - intros d s rest out [Hs Hno].
    apply email_retry; [exact Hs | apply email_pattern_rejects, Hno].
  - exact Hbad.
  - intros d rest out.
    assert (Hs := email_shape_nonempty good Hgood).
    apply email_pattern_shape in Hgood.
    cbn [Prompt.email String.eqb Ascii.eqb Bool.eqb].
    rewrite (truthy_nonempty good Hs), Hgood. reflexivity.
Qed.

Lemma not_email_shape (s : string) :
  fullmatch Prompt.RE_EMAIL_SIMPLE s = false -> ~ email_shape s.
Proof.
  intros Hm Hshape. apply email_pattern_shape in Hshape. congruence.
Qed.

Lemma email_returns_first_address_witness :
  Prompt.email None false "simple" None
               ["foo"; "a@b"; "a@@b.c"; "foo@bar.not"; "z"] [] =
  (Return (Some "foo@bar.not"), ["z"],
   [Asked "? "; Asked "? "; Asked "? "; Asked "? "]).
Proof.
  apply (email_returns_first_address None false None
           ["foo"; "a@b"; "a@@b.c"] "foo@bar.not" ["z"] []).
  - repeat constructor; try discriminate; apply not_email_shape; reflexivity.
  - exists "foo", "bar", "not". repeat split; discriminate.
Defined.

(** ** [regex] *)

Lemma regex_retry `{E : RegexEngine} pattern prompt empty flags default
    s stdin tty :
  s <> "" -> re_match pattern s flags = None ->
  Prompt.regex pattern prompt empty flags default (s :: stdin) tty =
  Prompt.regex pattern prompt empty flags None stdin
    (tty ++ [Asked (Prompt._make_prompt prompt default)])%list.
Proof.
  intros Hs Hm. cbn [Prompt.regex].
  rewrite (truthy_nonempty s Hs). cbn [negb]. rewrite Hm. reflexivity.
Qed.

(** X6. [regex] passes over every non-empty line the engine does not match
    and returns the match the engine gives for the first non-empty line it
    matches, whatever the engine; pattern and flags are handed to the
    engine as they are on every attempt. *)
Theorem regex_returns_first_match :
  forall (E : RegexEngine) (pattern : string) (prompt : option string)
         (empty : bool) (flags : Z) (default : option string)
         (bad : list string) (good : string) (m : Match)
         (stdin : list string) (tty : list event),
    Forall (fun s => s <> "" /\ re_match pattern s flags = None) bad ->
    good <> "" -> re_match pattern good flags = Some m ->
    Prompt.regex pattern prompt empty flags default
                 (bad ++ good :: stdin)%list tty =
    (Return (Some m), stdin,
     tty ++ prompts prompt default (S (List.length bad)))%list.
Proof.
  intros E pattern prompt empty flags default bad good m stdin tty
         Hbad Hne Hgood.
  rewrite <- attempts_single.
  apply (first_accepted_line_wins (Prompt.regex pattern prompt empty flags)
           (fun d => [Asked (Prompt._make_prompt prompt d)])
           (fun s => s <> "" /\ re_match pattern s flags = None)).
  - intros d s rest out [Hs Hm]. apply regex_retry; assumption.
  - exact Hbad.
  - intros d rest out. cbn [Prompt.regex].
    rewrite (truthy_nonempty good Hne). cbn [negb]. rewrite Hgood.
    reflexivity.
Qed.

Lemma regex_returns_first_match_witness :
  Prompt.regex (E := literal_engine) "foo" None false 0 None
               ["bar"; "fo"; "food"; "foo"] [] =
  (Return (Some "foo"), ["foo"], [Asked "? "; Asked "? "; Asked "? "]).
Proof.
  apply (regex_returns_first_match literal_engine "foo" None false 0%Z None
           ["bar"; "fo"] "food" "foo" ["foo"] []).
  - repeat constructor; discriminate.
  - discriminate.
  - reflexivity.
Defined.


(** ** [string] and [secret] *)

(** X8. [string] and [secret] read one line and never ask again: a line
    that is not empty is returned as it is, and in every case the call is
    over after its first line, one prompt shown ([secret] asks without
    echo). *)
Theorem string_and_secret_read_one_line :
  forall (prompt : option string) (empty : bool) (default : option string)
         (s : string) (stdin : list string) (tty : list event),
    (s <> "" ->
     Prompt.string prompt empty default (s :: stdin) tty =
       (Return (Some s), stdin,
        tty ++ [Asked (Prompt._make_prompt prompt default)])%list /\
     Prompt.secret prompt empty default (s :: stdin) tty =
       (Return (Some s), stdin,
        tty ++ [AskedNoEcho (Prompt._make_prompt prompt default)])%list) /\
    (exists r,
        Prompt.string prompt empty default (s :: stdin) tty =
        (Return r, stdin,
         tty ++ [Asked (Prompt._make_prompt prompt default)])%list) /\
    (exists r,
        Prompt.secret prompt empty default (s :: stdin) tty =
        (Return r, stdin,
         tty ++ [AskedNoEcho (Prompt._make_prompt prompt default)])%list).
Proof.
  intros prompt empty default s stdin tty.
  split; [|split].
  - intros Hs. cbn [Prompt.string Prompt.secret].
    rewrite (truthy_nonempty s Hs). split; reflexivity.
  - cbn [Prompt.string]. destruct (truthy s); cbn [negb].
    + eexists; reflexivity.
    + destruct (is_not_None default); [|destruct empty]; eexists; reflexivity.
  - cbn [Prompt.secret]. destruct (truthy s); cbn [negb].
    + eexists; reflexivity.
    + destruct (is_not_None default); [|destruct empty]; eexists; reflexivity.
Qed.

Lemma string_and_secret_read_one_line_witness :
  Prompt.string None false None ["foo123"; "x"] [] =
    (Return (Some "foo123"), ["x"], [Asked "? "]) /\
  Prompt.secret None false None ["foo123"; "x"] [] =
    (Return (Some "foo123"), ["x"], [AskedNoEcho "? "]).
Proof.
  apply (string_and_secret_read_one_line None false None "foo123" ["x"] []).
  discriminate.
Defined.

(** ** Printing an integer and reading it back *)

Lemma digits_digit (c : ascii) (d acc : Z) (after_digit : bool) (r : string) :
  digit c = Some d ->
  digits acc after_digit (String c r) = digits (10 * acc + d) true r.
Proof.
  intros Hd. cbn [digits]. rewrite Hd. reflexivity.
Qed.

Lemma digits_of_uint_acc (d : Decimal.uint) :
  forall acc : positive,
    digits (Z.pos acc) true (NilEmpty.string_of_uint d) =
    Some (Z.pos (Pos.of_uint_acc d acc)).
Proof.
  induction d; intros acc; cbn [NilEmpty.string_of_uint Pos.of_uint_acc];
    try reflexivity;
    (erewrite digits_digit by (vm_compute; reflexivity));
    rewrite <- IHd; f_equal; lia.
Qed.

Lemma digits_of_uint (d : Decimal.uint) :
  digits 0 true (NilEmpty.string_of_uint d) = Some (Z.of_N (Pos.of_uint d)).
Proof.
  induction d; cbn [NilEmpty.string_of_uint Pos.of_uint];
    try reflexivity;
    (erewrite digits_digit by (vm_compute; reflexivity));
    try exact IHd;
    cbn [Z.of_N]; rewrite <- digits_of_uint_acc; reflexivity.
Qed.

Lemma int_of_uint (d : Decimal.uint) :
  d <> Decimal.Nil ->
  int (NilEmpty.string_of_uint d) = Some (Z.of_N (Pos.of_uint d)) /\
  int (String "-" (NilEmpty.string_of_uint d)) =
    Some (- Z.of_N (Pos.of_uint d))%Z.
Proof.
  intros Hd.
  assert (H0 : digits 0 false (NilEmpty.string_of_uint d) =
               Some (Z.of_N (Pos.of_uint d))).
  { rewrite <- digits_of_uint. destruct d; [contradiction| ..]; reflexivity. }
  split.
  - destruct d; [contradiction| ..]; exact H0.
  - change (option_map Z.opp (digits 0 false (NilEmpty.string_of_uint d)) =
            Some (- Z.of_N (Pos.of_uint d))%Z).
    rewrite H0. reflexivity.
Qed.

Lemma int_str (z : Z) : int (str z) = Some z.
Proof.
  destruct z as [|p|p]; [reflexivity| |].
  - assert (Hd := DecimalPos.Unsigned.to_uint_nonnil p).
    cbn [str Obj_int Z.to_int NilZero.string_of_int].
    unfold NilZero.string_of_uint.
    destruct (int_of_uint _ Hd) as [Hint _].
    rewrite DecimalPos.Unsigned.of_to in Hint.
    destruct (Pos.to_uint p); [contradiction| ..]; exact Hint.
  - assert (Hd := DecimalPos.Unsigned.to_uint_nonnil p).
    cbn [str Obj_int Z.to_int NilZero.string_of_int].
    unfold NilZero.string_of_uint.
    destruct (int_of_uint _ Hd) as [_ Hint].
    rewrite DecimalPos.Unsigned.of_to in Hint.
    destruct (Pos.to_uint p); [contradiction| ..]; exact Hint.
Qed.

(** X9. [integer] reads back every integer as it is printed: the line
    [str z] (the text shown for a default [z] between the brackets of the
    prompt) is accepted and yields [z]. *)
Theorem integer_reads_back_printed_integer :
  forall (prompt : option string) (empty : bool) (default : option Z)
         (z : Z) (stdin : list string) (tty : list event),
    Prompt.integer prompt empty default (str z :: stdin) tty =
    (Return (Some z), stdin,
     tty ++ [Asked (Prompt._make_prompt prompt default)])%list.
Proof.
  intros prompt empty default z stdin tty.
  assert (Hint := int_str z).
  cbn [Prompt.integer].
  rewrite (truthy_nonempty _ (int_of_empty_line _ _ Hint)), Hint.
  reflexivity.
Qed.

(** ** [choice] *)

Lemma nth_error_enumerate_from {A} (l : list A) :
  forall (a k : nat) (item : A),
    nth_error l k = Some item ->
    nth_error (combine (map Z.of_nat (seq a (List.length l))) l) k =
    Some (Z.of_nat (a + k), item).
Proof.
  induction l as [|x l IH]; intros a k item Hk.
  - destruct k; discriminate.
  - destruct k as [|k]; simpl in *.
    + injection Hk as ->. rewrite Nat.add_0_r. reflexivity.
    + rewrite (IH (S a) k item Hk).
      replace (S a + k)%nat with (a + S k)%nat by lia. reflexivity.
Qed.

Lemma nth_error_menu {A} `{Obj A} (choices : list A) (instruction : string)
    (k : nat) (item : A) :
  nth_error choices k = Some item ->
  nth_error (Prompt.menu choices instruction) (S k) =
  Some (Printed ("    " ++ str (Z.of_nat k + 1)%Z ++ ": " ++ str item)).
Proof.
  intros Hk. unfold Prompt.menu, enumerate. cbn [nth_error].
  rewrite nth_error_map, (nth_error_enumerate_from choices 0 k item Hk).
  reflexivity.
Qed.

Lemma selected_in {A} (choices : list A) (s : string) (item : A) :
  Prompt.selected choices s = Some item -> In item choices.
Proof.
  intros Hsel. apply selected_spec in Hsel.
  destruct Hsel as (i & _ & _ & Hnth). eapply nth_error_In, Hnth.
Qed.

(** X10. The number [choice] prints in front of an item is the line that
    selects it: the item at position [k] (from 0) is printed as
    ["    <k+1>: <item>"] on line [k + 1] below the instruction, and the
    line [<k+1>] makes [choice] return that item. *)
Theorem choice_number_shown_selects_item :
  forall A (O : Obj A) (choices : list A) (instruction : string)
         (prompt : option string) (empty : bool) (default : option A)
         (k : nat) (item : A) (stdin : list string) (tty : list event),
    nth_error choices k = Some item ->
    nth_error (Prompt.menu choices instruction) (S k) =
      Some (Printed ("    " ++ str (Z.of_nat k + 1)%Z ++ ": " ++ str item)) /\
    Prompt.choice choices instruction prompt empty default
                  (str (Z.of_nat k + 1)%Z :: stdin) tty =
    (Return (Some item), stdin,
     tty ++ Prompt.menu choices instruction
         ++ [Asked (Prompt._make_prompt prompt default)])%list.
Proof.
  intros A O choices instruction prompt empty default k item stdin tty Hk.
  split; [apply nth_error_menu; exact Hk|].
  destruct choices as [|cho choices]; [destruct k; discriminate|].
  rewrite choice_step. cbv zeta.
  replace (Prompt.selected (cho :: choices) (str (Z.of_nat k + 1)%Z))
    with (Some item); [reflexivity|].
  symmetry. apply selected_spec. exists (Z.of_nat k + 1)%Z.
  split; [apply int_str|]. split.
  - assert (Hlt : (k < List.length (cho :: choices))%nat)
      by (apply nth_error_Some; rewrite Hk; discriminate).
    lia.
  - replace (Z.to_nat (Z.of_nat k + 1 - 1)) with k by lia. exact Hk.
Qed.

Lemma choice_number_shown_selects_item_witness :
  nth_error (Prompt.menu ["moe"; "curly"; "larry"]
                         Prompt.default_instruction) 3 =
    Some (Printed "    3: larry") /\
  Prompt.choice ["moe"; "curly"; "larry"] Prompt.default_instruction
                None false None ["3"; "x"] [] =
    (Return (Some "larry"), ["x"],
     [Printed "Select one of the following: ";
      Printed "    1: moe"; Printed "    2: curly"; Printed "    3: larry";
      Asked "? "]).
Proof.
  exact (choice_number_shown_selects_item string _
           ["moe"; "curly"; "larry"] Prompt.default_instruction
           None false None 2 "larry" ["x"] [] eq_refl).
Defined.

(** X11. What [choice] returns is one of the choices, or the default it
    was given (which need not be among the choices), or [None]: no line of
    the input makes it return anything else. *)
Theorem choice_returns_a_choice_or_the_default :
  forall A (O : Obj A) (choices : list A) (instruction : string)
         (prompt : option string) (empty : bool)
         (stdin : list string) (default : option A) (tty : list event)
         (item : A),
    fst (fst (Prompt.choice choices instruction prompt empty default
                            stdin tty)) = Return (Some item) ->
    In item choices \/ default = Some item.
Proof.
  intros A O choices instruction prompt empty stdin.
  destruct choices as [|cho choices].
  - intros default tty item. destruct stdin; discriminate.
  - induction stdin as [|s stdin IH]; intros default tty item.
    + cbn [Prompt.choice]. rewrite one_choice_suffices. discriminate.
    + rewrite choice_step. cbv zeta.
      destruct (Prompt.selected (cho :: choices) s) as [c|] eqn:Hsel.
      * intros Hret. injection Hret as <-.
        left. eapply selected_in, Hsel.
      * destruct (negb (truthy s)).
        -- destruct default as [d|]; cbn [is_not_None fst].
           ++ intros Hret. injection Hret as <-. right. reflexivity.
           ++ destruct empty; discriminate.
        -- intros Hret. apply IH in Hret.
           destruct Hret as [Hin | Hnone]; [left; exact Hin | discriminate].
Qed.

Lemma choice_returns_a_choice_or_the_default_witness :
  In "curly" ["moe"; "curly"; "larry"] \/ @None string = Some "curly".
Proof.
  apply (choice_returns_a_choice_or_the_default string _
           ["moe"; "curly"; "larry"] Prompt.default_instruction
           None false ["9"; "two"; "2"] None [] "curly").
  reflexivity.
Defined.

Lemma choice_retry {A} `{Obj A} (cho : A) (choices : list A)
    instruction prompt empty default s stdin tty :
  s <> "" ->
  (forall i, int s = Some i ->
             ~ (1 <= i <= Z.of_nat (List.length (cho :: choices)))%Z) ->
  Prompt.choice (cho :: choices) instruction prompt empty default
                (s :: stdin) tty =
  Prompt.choice (cho :: choices) instruction prompt empty None stdin
    (tty ++ (Prompt.menu (cho :: choices) instruction
             ++ [Asked (Prompt._make_prompt prompt default)]))%list.
Proof.
  intros Hs Hbad. rewrite choice_step. cbv zeta.
  rewrite (selected_none _ _ Hbad), (truthy_nonempty s Hs). reflexivity.
Qed.

(** X12. [choice] passes over every non-empty line that is no position
    between 1 and the number of choices and returns the item at the
    position given by the first line that is one; before each line it reads
    it prints the instruction and the numbered choices again and shows its
    prompt. *)
Theorem choice_returns_first_valid_position :
  forall A (O : Obj A) (choices : list A) (instruction : string)
         (prompt : option string) (empty : bool) (default : option A)
         (bad : list string) (good : string) (i : Z) (item : A)
         (stdin : list string) (tty : list event),
    Forall (fun s => s <> "" /\
                     forall j, int s = Some j ->
                               ~ (1 <= j <= Z.of_nat (List.length choices))%Z)
           bad ->
    int good = Some i ->
    nth_error choices (Z.to_nat (i - 1)) = Some item ->
    (1 <= i)%Z ->
    Prompt.choice choices instruction prompt empty default
                  (bad ++ good :: stdin)%list tty =
    (Return (Some item), stdin,
     tty ++ attempts
              (fun d => Prompt.menu choices instruction
                        ++ [Asked (Prompt._make_prompt prompt d)])%list
              default (S (List.length bad)))%list.
Proof.
  intros A O choices instruction prompt empty default bad good i item
         stdin tty Hbad Hint Hnth Hpos.
  destruct choices as [|cho choices];
    [destruct (Z.to_nat (i - 1)); discriminate|].
  apply (first_accepted_line_wins
           (Prompt.choice (cho :: choices) instruction prompt empty)
           (fun d => Prompt.menu (cho :: choices) instruction
                     ++ [Asked (Prompt._make_prompt prompt d)])%list
           (fun s => s <> "" /\
                     forall j, int s = Some j ->
                       ~ (1 <= j <= Z.of_nat (List.length (cho :: choices)))%Z)).
  - intros d s rest out [Hs Hno]. apply choice_retry; assumption.
  - exact Hbad.
  - intros d rest out. rewrite choice_step. cbv zeta.
    replace (Prompt.selected (cho :: choices) good) with (Some item);
      [reflexivity|].
    symmetry. apply selected_spec. exists i.
    split; [exact Hint|]. split; [|exact Hnth].
    assert (Hlt : (Z.to_nat (i - 1) < List.length (cho :: choices))%nat)
      by (apply nth_error_Some; rewrite Hnth; discriminate).
    lia.
Qed.

Lemma choice_returns_first_valid_position_witness :
  Prompt.choice ["moe"; "curly"] "Who?" None false None
                ["0"; "3"; "abc"; "2"; "1"] [] =
  (Return (Some "curly"), ["1"],
   [Printed "Who?"; Printed "    1: moe"; Printed "    2: curly"; Asked "? ";
    Printed "Who?"; Printed "    1: moe"; Printed "    2: curly"; Asked "? ";
    Printed "Who?"; Printed "    1: moe"; Printed "    2: curly"; Asked "? ";
    Printed "Who?"; Printed "    1: moe"; Printed "    2: curly"; Asked "? "]).
Proof.
  assert (Hbad :
    Forall (fun s => s <> "" /\
                     forall j, int s = Some j ->
                       ~ (1 <= j <= Z.of_nat (List.length ["moe"; "curly"]))%Z)
           ["0"; "3"; "abc"]).
  { repeat constructor; try discriminate;
      intros j Hj; injection Hj as <-; simpl; lia. }
  exact (choice_returns_first_valid_position string _ ["moe"; "curly"]
           "Who?" None false None ["0"; "3"; "abc"] "2" 2%Z "curly" ["1"] []
           Hbad eq_refl eq_refl ltac:(lia)).
Defined.

(** ** [boolean] *)

Lemma prefix_refl (s : string) : String.prefix s s = true.
Proof.
  induction s as [|c s IH]; simpl; [reflexivity|].
  destruct (ascii_dec c c); [exact IH | contradiction].
Qed.

Lemma lower_nonempty (s : string) : s <> "" -> lower s <> "".
Proof.
  destruct s; [contradiction | discriminate].
Qed.

Lemma lower_length (s : string) : String.length (lower s) = String.length s.
Proof.
  induction s as [|c s IH]; simpl; [|rewrite IH]; reflexivity.
Qed.

Lemma norm_nonempty (sensitive : bool) (s : string) :
  s <> "" -> Prompt.norm sensitive s <> "".
Proof.
  intros Hs. unfold Prompt.norm. destruct sensitive; [exact Hs|].
  apply lower_nonempty, Hs.
Qed.

(** One step of [boolean] on a line that is not empty. *)
Lemma boolean_step prompt yes no default sensitive partial s stdin tty :
  s <> "" ->
  Prompt.boolean prompt yes no default sensitive partial (s :: stdin) tty =
  match Prompt.to_bool yes no sensitive partial s with
  | Some b =>
      (Return b, stdin,
       tty ++ [Asked (Prompt.boolean_prompt prompt yes no default)])%list
  | None =>
      Prompt.boolean prompt yes no default sensitive partial stdin
        (tty ++ [Asked (Prompt.boolean_prompt prompt yes no default)])%list
  end.
Proof.
  intros Hs.
  destruct (Prompt.to_bool yes no sensitive partial s) as [b|] eqn:Hto.
  - cbn [Prompt.boolean]. rewrite (truthy_nonempty s Hs), Hto.
    destruct default; reflexivity.
  - apply boolean_retry; assumption.
Qed.

Lemma to_bool_exact yes no sensitive s :
  Prompt.to_bool yes no sensitive false s =
  if String.eqb (Prompt.norm sensitive yes) (Prompt.norm sensitive s)
  then Some true
  else if String.eqb (Prompt.norm sensitive no) (Prompt.norm sensitive s)
       then Some false
       else None.
Proof.
  reflexivity.
Qed.

(** X13. Typing a response in full always selects it: in both matching
    modes and with or without case sensitivity, the line [yes] (not empty)
    makes [boolean] return [True], and the line [no] makes it return
    [False] unless the normalised [yes] starts with (prefix mode) or equals
    (exact mode) the normalised [no], in which case [yes] wins. *)
Theorem boolean_accepts_full_response :
  forall (prompt : option string) (yes no : string) (default : option bool)
         (sensitive partial : bool) (stdin : list string) (tty : list event),
    let tty' :=
      (tty ++ [Asked (Prompt.boolean_prompt prompt yes no default)])%list in
    (yes <> "" ->
     Prompt.boolean prompt yes no default sensitive partial
                    (yes :: stdin) tty = (Return true, stdin, tty')) /\
    (no <> "" ->
     (if partial
      then startswith (Prompt.norm sensitive yes) (Prompt.norm sensitive no)
      else String.eqb (Prompt.norm sensitive yes) (Prompt.norm sensitive no))
     = false ->
     Prompt.boolean prompt yes no default sensitive partial
                    (no :: stdin) tty = (Return false, stdin, tty')).
Proof.
  intros prompt yes no default sensitive partial stdin tty tty'.
  split.
  - intros Hyes. rewrite (boolean_step _ _ _ _ _ _ _ _ _ Hyes).
    destruct partial.
    + rewrite (to_bool_partial _ _ _ _ Hyes).
      unfold startswith. rewrite prefix_refl. reflexivity.
    + rewrite to_bool_exact, String.eqb_refl. reflexivity.
  - intros Hno Hclash. rewrite (boolean_step _ _ _ _ _ _ _ _ _ Hno).
    destruct partial.
    + rewrite (to_bool_partial _ _ _ _ Hno), Hclash.
      unfold startswith. rewrite prefix_refl. reflexivity.
    + rewrite to_bool_exact, Hclash, String.eqb_refl. reflexivity.
Qed.

Lemma boolean_accepts_full_response_witness :
  Prompt.boolean None "Yes" "No" None true false ["Yes"; "x"] [] =
    (Return true, ["x"], [Asked "Yes/No? "]) /\
  Prompt.boolean None "Yes" "No" None true false ["No"; "x"] [] =
    (Return false, ["x"], [Asked "Yes/No? "]).
Proof.
  split.
  - apply (boolean_accepts_full_response None "Yes" "No" None true false
             ["x"] []).
    discriminate.
  - apply (boolean_accepts_full_response None "Yes" "No" None true false
             ["x"] []).
    + discriminate.
    + reflexivity.
Defined.

(** X14. Without [sensitive], [boolean] does not look at the case of the
    line: two lines with the same lower-case form get the same
    treatment. *)
Theorem boolean_ignores_case :
  forall (prompt : option string) (yes no : string) (default : option bool)
         (partial : bool) (s1 s2 : string)
         (stdin : list string) (tty : list event),
    lower s1 = lower s2 ->
    Prompt.boolean prompt yes no default false partial (s1 :: stdin) tty =
    Prompt.boolean prompt yes no default false partial (s2 :: stdin) tty.
Proof.
  intros prompt yes no default partial s1 s2 stdin tty Hlow.
  assert (Hlen : len s1 = len s2).
  { unfold len. rewrite <- (lower_length s1), <- (lower_length s2), Hlow.
    reflexivity. }
  assert (Hto : Prompt.to_bool yes no false partial s1 =
                Prompt.to_bool yes no false partial s2).
  { unfold Prompt.to_bool, Prompt.norm. cbn [str Obj_str].
    rewrite Hlen, Hlow. reflexivity. }
  assert (Htruthy : truthy s1 = truthy s2).
  { destruct s1, s2; try reflexivity; discriminate Hlow. }
  cbn [Prompt.boolean]. rewrite Htruthy, Hto. reflexivity.
Qed.

Lemma boolean_ignores_case_witness :
  Prompt.boolean None "yes" "no" None false true ["YeS"; "x"] [] =
  Prompt.boolean None "yes" "no" None false true ["yes"; "x"] [].
Proof.
  apply (boolean_ignores_case None "yes" "no" None true "YeS" "yes" ["x"] []).
  reflexivity.
Defined.

(** X15. Without a default, an empty line is no answer: when neither
    response is the empty string, [boolean] asks again, in both matching
    modes. *)
Theorem boolean_asks_again_on_empty_line :
  forall (prompt : option string) (yes no : string)
         (sensitive partial : bool) (stdin : list string) (tty : list event),
    yes <> "" -> no <> "" ->
    Prompt.boolean prompt yes no None sensitive partial ("" :: stdin) tty =
    Prompt.boolean prompt yes no None sensitive partial stdin
      (tty ++ [Asked (Prompt.boolean_prompt prompt yes no None)])%list.
Proof.
  intros prompt yes no sensitive partial stdin tty Hyes Hno.
  rewrite <- (boolean_prompt_fixed prompt yes no None sensitive partial stdin).
  assert (Hto : Prompt.to_bool yes no sensitive partial "" = None).
  { unfold Prompt.to_bool.
    replace (partial && truthy (len "")) with false
      by (destruct partial; reflexivity).
    assert (Hn : Prompt.norm sensitive "" = "") by (destruct sensitive; reflexivity).
    rewrite Hn.
    apply (norm_nonempty sensitive) in Hyes, Hno.
    apply String.eqb_neq in Hyes, Hno. rewrite Hyes, Hno. reflexivity. }
  cbn [Prompt.boolean]. rewrite Hto. reflexivity.
Qed.

Lemma boolean_asks_again_on_empty_line_witness :
  Prompt.boolean None "y" "n" None false true [""; ""; "n"] [] =
  Prompt.boolean None "y" "n" None false true [""; "n"] [Asked "y/n? "].
Proof.
  apply (boolean_asks_again_on_empty_line None "y" "n" false true
           [""; "n"] []); discriminate.
Defined.

(** X16. With [partial] off, a part of a response is no answer: a line
    that is not empty is accepted only when, normalised, it equals the
    normalised [yes] (answer [True]) or the normalised [no] (answer
    [False]); any other line makes [boolean] ask again. *)
Theorem boolean_exact_match_only :
  forall (prompt : option string) (yes no : string) (default : option bool)
         (sensitive : bool) (s : string)
         (stdin : list string) (tty : list event),
    s <> "" ->
    let tty' :=
      (tty ++ [Asked (Prompt.boolean_prompt prompt yes no default)])%list in
    (Prompt.norm sensitive s = Prompt.norm sensitive yes ->
     Prompt.boolean prompt yes no default sensitive false (s :: stdin) tty =
     (Return true, stdin, tty')) /\
    (Prompt.norm sensitive s <> Prompt.norm sensitive yes ->
     Prompt.norm sensitive s = Prompt.norm sensitive no ->
     Prompt.boolean prompt yes no default sensitive false (s :: stdin) tty =
     (Return false, stdin, tty')) /\
    (Prompt.norm sensitive s <> Prompt.norm sensitive yes ->
     Prompt.norm sensitive s <> Prompt.norm sensitive no ->
     Prompt.boolean prompt yes no default sensitive false (s :: stdin) tty =
     Prompt.boolean prompt yes no default sensitive false stdin tty').
Proof.
  intros prompt yes no default sensitive s stdin tty Hs tty'.
  rewrite (boolean_step _ _ _ _ _ _ _ _ _ Hs), to_bool_exact.
  split; [|split].
  - intros <-. rewrite String.eqb_refl. reflexivity.
  - intros Hyes <-.
    apply not_eq_sym, String.eqb_neq in Hyes.
    rewrite Hyes, String.eqb_refl. reflexivity.
  - intros Hyes Hno.
    apply not_eq_sym, String.eqb_neq in Hyes.
    apply not_eq_sym, String.eqb_neq in Hno.
    rewrite Hyes, Hno. reflexivity.
Qed.

Lemma boolean_exact_match_only_witness :
  Prompt.boolean None "yes" "no" None false false ["YES"; "x"] [] =
    (Return true, ["x"], [Asked "yes/no? "]) /\
  Prompt.boolean None "yes" "no" None false false ["No"; "x"] [] =
    (Return false, ["x"], [Asked "yes/no? "]) /\
  Prompt.boolean None "yes" "no" None false false ["y"; "x"] [] =
  Prompt.boolean None "yes" "no" None false false ["x"] [Asked "yes/no? "].
Proof.
  split; [|split].
  - apply (boolean_exact_match_only None "yes" "no" None false "YES" ["x"] []);
      [discriminate | reflexivity].
  - apply (boolean_exact_match_only None "yes" "no" None false "No" ["x"] []);
      [discriminate | discriminate | reflexivity].
  - apply (boolean_exact_match_only None "yes" "no" None false "y" ["x"] []);
      discriminate.
Defined.

(** ** The prompt text and the exceptions *)

(** X17. The prompt made by [_make_prompt] is never the empty string,
    whatever prompt and default it is given. *)
Theorem make_prompt_never_empty :
  forall T (O : Obj T) (prompt : option string) (default : option T),
    Prompt._make_prompt prompt default <> "".
Proof.
  intros T O prompt default. unfold Prompt._make_prompt. cbv zeta.
  assert (Hmade :
    (if truthy default then "[" ++ str default ++ "]? " else Prompt.PROMPT)
    <> "") by (destruct (truthy default); discriminate).
  destruct prompt as [p|]; [|exact Hmade].
  destruct p as [|c p]; [exact Hmade | discriminate].
Qed.

Ltac no_exception_on_empty_line default empty :=
  destruct (is_not_None default); [|destruct empty]; discriminate.

Lemma character_no_ValueError prompt empty stdin :
  forall default tty,
    fst (fst (Prompt.character prompt empty default stdin tty))
    <> Raise ValueError.
Proof.
  induction stdin as [|s stdin IH]; intros default tty; [discriminate|].
  cbn [Prompt.character]. destruct (negb (truthy s)).
  - no_exception_on_empty_line default empty.
  - destruct (len s =? 1)%Z; [discriminate | apply IH].
Qed.

Lemma email_no_ValueError prompt empty stdin :
  forall default tty,
    fst (fst (Prompt.email prompt empty "simple" default stdin tty))
    <> Raise ValueError.
Proof.
  induction stdin as [|s stdin IH]; intros default tty; [discriminate|].
  cbn [Prompt.email String.eqb Ascii.eqb Bool.eqb].
  destruct (negb (truthy s)).
  - no_exception_on_empty_line default empty.
  - destruct (fullmatch Prompt.RE_EMAIL_SIMPLE s); [discriminate | apply IH].
Qed.

Lemma integer_no_ValueError prompt empty stdin :
  forall default tty,
    fst (fst (Prompt.integer prompt empty default stdin tty))
    <> Raise ValueError.
Proof.
  induction stdin as [|s stdin IH]; intros default tty; [discriminate|].
  cbn [Prompt.integer]. destruct (negb (truthy s)).
  - no_exception_on_empty_line default empty.
  - destruct (int s); [discriminate | apply IH].
Qed.

Lemma real_no_ValueError {F} `{Obj F} (float : string -> option F)
    prompt empty stdin :
  forall default tty,
    fst (fst (Prompt.real float prompt empty default stdin tty))
    <> Raise ValueError.
Proof.
  induction stdin as [|s stdin IH]; intros default tty; [discriminate|].
  cbn [Prompt.real]. destruct (negb (truthy s)).
  - no_exception_on_empty_line default empty.
  - destruct (float s); [discriminate | apply IH].
Qed.

Lemma choice_no_ValueError {A} `{Obj A} (cho : A) (choices : list A)
    instruction prompt empty stdin :
  forall default tty,
    fst (fst (Prompt.choice (cho :: choices) instruction prompt empty
                            default stdin tty))
    <> Raise ValueError.
Proof.
  induction stdin as [|s stdin IH]; intros default tty.
  - cbn [Prompt.choice]. rewrite one_choice_suffices. discriminate.
  - rewrite choice_step. cbv zeta.
    destruct (Prompt.selected (cho :: choices) s); [discriminate|].
    destruct (negb (truthy s)).
    + no_exception_on_empty_line default empty.
    + apply IH.
Qed.

Lemma boolean_no_ValueError yes no default sensitive partial stdin :
  forall prompt tty,
    fst (fst (Prompt.boolean prompt yes no default sensitive partial
                             stdin tty))
    <> Raise ValueError.
Proof.
  induction stdin as [|s stdin IH]; intros prompt tty; [discriminate|].
  cbn [Prompt.boolean].
  destruct default as [d|]; destruct (negb (truthy s));
    try discriminate;
    (destruct (Prompt.to_bool yes no sensitive partial s);
     [discriminate | apply IH]).
Qed.

Lemma string_and_secret_once prompt empty default stdin tty :
  (forall s rest, stdin = s :: rest ->
     exists r,
       Prompt.string prompt empty default stdin tty =
       (Return r, rest,
        tty ++ [Asked (Prompt._make_prompt prompt default)])%list) /\
  (forall s rest, stdin = s :: rest ->
     exists r,
       Prompt.secret prompt empty default stdin tty =
       (Return r, rest,
        tty ++ [AskedNoEcho (Prompt._make_prompt prompt default)])%list).
Proof.
  split; intros s rest ->.
  - cbn [Prompt.string]. destruct (truthy s); cbn [negb].
    + eexists; reflexivity.
    + destruct (is_not_None default); [|destruct empty]; eexists; reflexivity.
  - cbn [Prompt.secret]. destruct (truthy s); cbn [negb].
    + eexists; reflexivity.
    + destruct (is_not_None default); [|destruct empty]; eexists; reflexivity.
Qed.

(** X18. A line that cannot be read as a value never shows as an
    exception: [character], [integer], [real], [secret], [string] and
    [boolean] never raise [ValueError], [email] does not in mode
    ["simple"], and [choice] does not when it has a choice to offer.
    ([regex] is left out: what its engine raises is raised by [regex].) *)
Theorem ValueError_only_for_invalid_arguments :
  forall (prompt : option string) (empty : bool) (stdin : list string)
         (tty : list event),
    (forall default,
        fst (fst (Prompt.character prompt empty default stdin tty))
        <> Raise ValueError) /\
    (forall default,
        fst (fst (Prompt.email prompt empty "simple" default stdin tty))
        <> Raise ValueError) /\
    (forall default,
        fst (fst (Prompt.integer prompt empty default stdin tty))
        <> Raise ValueError) /\
    (forall F (O : Obj F) (float : string -> option F) default,
        fst (fst (Prompt.real float prompt empty default stdin tty))
        <> Raise ValueError) /\
    (forall default,
        fst (fst (Prompt.secret prompt empty default stdin tty))
        <> Raise ValueError) /\
    (forall default,
        fst (fst (Prompt.string prompt empty default stdin tty))
        <> Raise ValueError) /\
    (forall A (O : Obj A) (cho : A) (choices : list A) instruction default,
        fst (fst (Prompt.choice (cho :: choices) instruction prompt empty
                                default stdin tty))
        <> Raise ValueError) /\
    (forall yes no default sensitive partial,
        fst (fst (Prompt.boolean prompt yes no default sensitive partial
                                 stdin tty))
        <> Raise ValueError).
Proof.
  intros prompt empty stdin tty.
  repeat match goal with |- _ /\ _ => split end; intros.
  - apply character_no_ValueError.
  - apply email_no_ValueError.
  - apply integer_no_ValueError.
  - apply real_no_ValueError.
  - destruct (string_and_secret_once prompt empty default stdin tty)
      as [_ Hsecret].
    destruct stdin as [|s stdin]; [discriminate|].
    destruct (Hsecret s stdin eq_refl) as [r ->]. discriminate.
  - destruct (string_and_secret_once prompt empty default stdin tty)
      as [Hstring _].
    destruct stdin as [|s stdin]; [discriminate|].
    destruct (Hstring s stdin eq_refl) as [r ->]. discriminate.
  - apply choice_no_ValueError.
  - apply boolean_no_ValueError.
Qed.

(** ** Where a returned value comes from *)

(** X19. A string returned by [character] is the default it was given or a
    line of the input of exactly one character. *)
Theorem character_returns_default_or_one_character :
  forall (prompt : option string) (empty : bool) (stdin : list string)
         (default : option string) (tty : list event) (r : string),
    fst (fst (Prompt.character prompt empty default stdin tty)) =
      Return (Some r) ->
    default = Some r \/ (In r stdin /\ String.length r = 1%nat).
Proof.
  intros prompt empty stdin.
  induction stdin as [|s stdin IH]; intros default tty r; [discriminate|].
  cbn [Prompt.character]. destruct (negb (truthy s)).
  - destruct default as [d|]; cbn [is_not_None fst].
    + intros Hret. injection Hret as <-. left. reflexivity.
    + destruct empty; discriminate.
  - destruct (Z.eqb_spec (len s) 1) as [Hlen|Hlen].
    + intros Hret. injection Hret as <-. right.
      split; [left; reflexivity | unfold len in Hlen; lia].
    + intros Hret. apply IH in Hret.
      destruct Hret as [Hnone | [Hin Hone]]; [discriminate|].
      right. split; [right; exact Hin | exact Hone].
Qed.

Lemma character_returns_default_or_one_character_witness :
  @None string = Some "b" \/ (In "b" ["aa"; "b"; "c"] /\ String.length "b" = 1%nat).
Proof.
  apply (character_returns_default_or_one_character None false
           ["aa"; "b"; "c"] None [] "b").
  reflexivity.
Defined.

(** X20. A string returned by [email] is the default it was given (which
    is not checked) or a line of the input that has the shape of an
    address. *)
Theorem email_returns_default_or_address :
  forall (prompt : option string) (empty : bool) (mode : string)
         (stdin : list string) (default : option string)
         (tty : list event) (r : string),
    fst (fst (Prompt.email prompt empty mode default stdin tty)) =
      Return (Some r) ->
    default = Some r \/ (In r stdin /\ email_shape r).
Proof.
  intros prompt empty mode stdin.
  induction stdin as [|s stdin IH]; intros default tty r;
    cbn [Prompt.email]; destruct (String.eqb mode "simple");
    try discriminate.
  destruct (negb (truthy s)).
  - destruct default as [d|]; cbn [is_not_None fst].
    + intros Hret. injection Hret as <-. left. reflexivity.
    + destruct empty; discriminate.
  - destruct (fullmatch Prompt.RE_EMAIL_SIMPLE s) eqn:Hm.
    + intros Hret. injection Hret as <-. right.
      split; [left; reflexivity | apply email_pattern_shape, Hm].
    + intros Hret. apply IH in Hret.
      destruct Hret as [Hnone | [Hin Hshape]]; [discriminate|].
      right. split; [right; exact Hin | exact Hshape].
Qed.

Lemma email_returns_default_or_address_witness :
  @None string = Some "a@b.c" \/
  (In "a@b.c" ["a@b"; "a@b.c"] /\ email_shape "a@b.c").
Proof.
  apply (email_returns_default_or_address None false "simple"
           ["a@b"; "a@b.c"] None [] "a@b.c").
  reflexivity.
Defined.

(** X21. A number returned by [integer] is the default it was given or the
    value of a line of the input. *)
Theorem integer_returns_default_or_parsed_line :
  forall (prompt : option string) (empty : bool) (stdin : list string)
         (default : option Z) (tty : list event) (z : Z),
    fst (fst (Prompt.integer prompt empty default stdin tty)) =
      Return (Some z) ->
    default = Some z \/ exists s, In s stdin /\ int s = Some z.
Proof.
  intros prompt empty stdin.
  induction stdin as [|s stdin IH]; intros default tty z; [discriminate|].
  cbn [Prompt.integer]. destruct (negb (truthy s)).
  - destruct default as [d|]; cbn [is_not_None fst].
    + intros Hret. injection Hret as <-. left. reflexivity.
    + destruct empty; discriminate.
  - destruct (int s) as [i|] eqn:Hint.
    + intros Hret. injection Hret as <-. right.
      exists s. split; [left; reflexivity | exact Hint].
    + intros Hret. apply IH in Hret.
      destruct Hret as [Hnone | (s' & Hin & Hs')]; [discriminate|].
      right. exists s'. split; [right; exact Hin | exact Hs'].
Qed.

Lemma integer_returns_default_or_parsed_line_witness :
  @None Z = Some 42%Z \/ exists s, In s ["x"; "42"] /\ int s = Some 42%Z.
Proof.
  apply (integer_returns_default_or_parsed_line None false ["x"; "42"]
           None [] 42%Z).
  reflexivity.
Defined.

(** X22. A match returned by [regex] is one the engine gave, for the
    pattern and the flags of the call, on a line of the input or on the
    default. *)
Theorem regex_returns_a_match_of_the_engine :
  forall (E : RegexEngine) (pattern : string) (prompt : option string)
         (empty : bool) (flags : Z) (stdin : list string)
         (default : option string) (tty : list event) (m : Match),
    fst (fst (Prompt.regex pattern prompt empty flags default stdin tty)) =
      Return (Some m) ->
    exists s,
      (In s stdin \/ default = Some s) /\
      re_match pattern s flags = Some m.
Proof.
  intros E pattern prompt empty flags stdin.
  induction stdin as [|s stdin IH]; intros default tty m; [discriminate|].
  assert (Hnext : forall d : option string,
    fst (fst (Prompt.regex pattern prompt empty flags None stdin
                (tty ++ [Asked (Prompt._make_prompt prompt d)])%list)) =
      Return (Some m) ->
    exists s', (In s' (s :: stdin) \/ default = Some s') /\
               re_match pattern s' flags = Some m).
  { intros d Hret. apply IH in Hret.
    destruct Hret as (s' & [Hin | Hnone] & Hs'); [|discriminate].
    exists s'. split; [left; right; exact Hin | exact Hs']. }
  cbn [Prompt.regex]. destruct (negb (truthy s)).
  - destruct default as [d|].
    + destruct (re_match pattern d flags) as [m'|] eqn:Hm.
      * intros Hret. injection Hret as <-.
        exists d. split; [right; reflexivity | exact Hm].
      * apply Hnext.
    + destruct empty; [discriminate|].
      destruct (re_match pattern s flags) as [m'|] eqn:Hm.
      * intros Hret. injection Hret as <-.
        exists s. split; [left; left; reflexivity | exact Hm].
      * apply Hnext.
  - destruct (re_match pattern s flags) as [m'|] eqn:Hm.
    + intros Hret. injection Hret as <-.
      exists s. split; [left; left; reflexivity | exact Hm].
    + apply Hnext.
Qed.

Lemma regex_returns_a_match_of_the_engine_witness :
  exists s,
    (In s ["bar"; "food"] \/ @None string = Some s) /\
    re_match (RegexEngine := literal_engine) "foo" s 0%Z = Some "foo".
Proof.
  apply (regex_returns_a_match_of_the_engine literal_engine "foo" None
           false 0%Z ["bar"; "food"] None [] "foo").
  reflexivity.
Defined.
